(** * Liveliness-detection browser client: [static/script.js]

    A shallow embedding of the client script and the properties of its
    session controller, its two loops and its overlay renderer.

    The script is event driven: every function of the script runs to
    completion between two browser events, and the two [async] functions
    are cut at their [await]s into the segments that run between events.
    Each function is a computation in the monad [Js] (state, exceptions,
    and the calls made to the browser), written statement by statement
    after the source. *)

From Stdlib Require Import ZArith Ascii String Floats.
From stdpp Require Import base strings pretty list gmap.

Set Warnings "-inexact-float,-register-all".
Open Scope Z_scope.

(** ** JavaScript numbers

    Numbers are IEEE binary64 values, which is what [PrimFloat] implements;
    [+], [-], [*] and [>] of the script are [PrimFloat.add], [sub], [mul]
    and [ltb] (with the operands swapped). *)

Module Number.

(** The integer [m * 2^e] when it is one. *)
Definition integer_value (m : positive) (e : Z) : option Z :=
  if 0 <=? e then Some (Z.pos m * 2 ^ e)
  else if Z.pos m mod 2 ^ (- e) =? 0 then Some (Z.pos m / 2 ^ (- e))
  else None.

(** Exact for [|n| <= 2^53], the only range where it is used. *)
Definition of_Z (n : Z) : float :=
  let f := PrimFloat.of_uint63 (Uint63.of_Z (Z.abs n)) in
  if n <? 0 then PrimFloat.opp f else f.

(** [Math.round]: the closest integer, ties towards +infinity; NaN, the
    infinities and the zeros are returned as they are, and a value that
    rounds to zero keeps its sign. *)
Definition Math_round (x : float) : float :=
  match Prim2SF x with
  | S754_finite s m e =>
      if 0 <=? e then x
      else
        let n := if s then Z.neg m else Z.pos m in
        let r := (2 * n + 2 ^ (- e)) / 2 ^ (- e + 1) in
        if r =? 0 then (if s then PrimFloat.neg_zero else PrimFloat.zero) else of_Z r
  | _ => x
  end.

Section ToString.
(** The engine's shortest-digits conversion, used as it is for values
    that have a fraction or lie beyond [2^53]. *)
Variable engine_toString : float -> string.

(** [Number::toString], radix 10, as the template literal applies it. *)
Definition toString (x : float) : string :=
  match Prim2SF x with
  | S754_nan => "NaN"
  | S754_infinity s => if s then "-Infinity" else "Infinity"
  | S754_zero _ => "0"
  | S754_finite s m e =>
      match integer_value m e with
      | Some n =>
          if n <=? 2 ^ 53
          then (if s then "-" else "") +:+ pretty n
          else engine_toString x
      | None => engine_toString x
      end
  end.
End ToString.

End Number.

(** ** Data model *)

(** A parsed JSON value: what [response.json()] gives for a body that
    parses. The script stores it as it is, whatever its shape. *)
Inductive Json :=
| JNull
| JBool (b : bool)
| JNumber (x : float)
| JString (s : string)
| JArray (items : list Json)
| JObject (members : list (string * Json)).

(** A value of the script: a parsed value, or [undefined]. *)
Definition Value : Type := option Json.

(** One entry of the response as the interface of the service has it:
    [{box: [x, y, w, h], label, confidence}]. *)
Record Detection := {
  box : float * float * float * float;
  label : string;
  confidence : float
}.

(** The parsed form of an entry, and of a list of entries. *)
Definition json_of_detection (d : Detection) : Json :=
  let '(x, y, w, h) := box d in
  JObject [("box", JArray [JNumber x; JNumber y; JNumber w; JNumber h]);
           ("label", JString (label d));
           ("confidence", JNumber (confidence d))].

Definition detections (D : list Detection) : Json := JArray (map json_of_detection D).

(** [o.key] for an object made by [JSON.parse]: of members with the same
    key the last one counts. *)
Fixpoint member (key : string) (m : list (string * Json)) (found : Value) : Value :=
  match m with
  | [] => found
  | (k, v) :: m' => member key m' (if String.eqb k key then Some v else found)
  end.

(** Strings are held in UTF-8. Iterating a string yields its code
    points, each as a string: a byte [10xxxxxx] continues the code point
    before it. *)
Definition continues (c : ascii) : bool :=
  ((128 <=? nat_of_ascii c) && (nat_of_ascii c <? 192))%nat.

Definition flush (cur : string) : list Json :=
  match cur with
  | EmptyString => []
  | _ => [JString cur]
  end.

Fixpoint code_points (cur : string) (s : string) : list Json :=
  match s with
  | EmptyString => flush cur
  | String c s' =>
      if continues c then code_points (cur +:+ String c EmptyString) s'
      else flush cur ++ code_points (String c EmptyString) s'
  end.

Definition characters (s : string) : list Json := code_points EmptyString s.

(** The elements an iterable value yields: arrays and strings are the
    iterable values among the parsed ones. *)
Definition elements (v : Value) : option (list Json) :=
  match v with
  | Some (JArray l) => Some l
  | Some (JString s) => Some (characters s)
  | _ => None
  end.

(** A [MediaStream] handle with the ids of its tracks. The handle is
    shared between the [stream] variable and [video.srcObject]; whether a
    track has ended is browser state ([ended_tracks] below). *)
Record MediaStream := {
  stream_id : nat;
  tracks : list nat
}.

(** What the script has put into the status element, with the property
    it assigned. *)
Inductive StatusContent :=
| TextContent (s : string)
| InnerHTML (s : string).

(** Errors that reach the script's [catch] blocks. *)
Inductive Exn :=
| TypeError (msg : string)
| HttpError (status : Z)          (* [new Error(`HTTP error! status: ...`)] *)
| NetworkError                    (* [fetch] rejected *)
| SyntaxError                     (* [response.json()] rejected *)
| NotAllowedError                 (* camera permission denied *)
| NotFoundError.                  (* no camera *)

(** ** The 2D drawing context and the visible surface *)

(** The context attributes the script assigns. *)
Record Context2D := {
  strokeStyle : string;
  lineWidth : float;
  fillStyle : string;
  font : string
}.

(** A drawing call with the arguments it received and the attributes
    the context had. The surface is the sequence of the calls made since
    it was last cleared, oldest first: what is on screen is a function of
    it, in which a call with an argument that is not finite paints
    nothing. *)
Inductive DrawOp :=
| DrawImage
| StrokeRect (x y w h : float) (style : string) (width : float)
| FillRect (x y w h : float) (style : string)
| FillText (text : string) (x y : float) (style : string) (fnt : string).

(** A context as [getContext('2d')] returns it. *)
Definition fresh_context : Context2D :=
  {| strokeStyle := "#000000"; lineWidth := 1%float;
     fillStyle := "#000000"; font := "10px sans-serif" |}.

Definition lower_ascii (c : ascii) : ascii :=
  let n := nat_of_ascii c in
  if ((65 <=? n) && (n <=? 90))%nat then ascii_of_nat (n + 32) else c.

Fixpoint lower_string (s : string) : string :=
  match s with
  | EmptyString => EmptyString
  | String c s' => String (lower_ascii c) (lower_string s')
  end.

(** Assigning an opaque [#RRGGBB] colour to [strokeStyle] or [fillStyle]
    stores its serialisation, the same colour in lowercase. *)
Definition css_color (s : string) : string := lower_string s.

(** ** Calls to the browser and accesses of the shared slot *)

Inductive Component :=
| SessionController        (* [startDetection], [stopDetection] *)
| RenderLoop               (* [renderLoop] *)
| PredictionLoop           (* [predictionLoop] *)
| OverlayRenderer.         (* [drawPredictions] *)

Inductive Effect :=
| SlotRead (who : Component)
| SlotWrite (who : Component) (v : Json)
| ConsoleError (msg : string) (e : Exn)
| CallGetUserMedia
| CallFetch (req : nat) (image : string)
| CallRequestAnimationFrame
| CallSetInterval (id : nat)
| CallClearInterval (id : option nat)
| CallTrackStop (track : nat)
| CallVideoPlay.

(** ** State *)

(** Where an outstanding request of the prediction loop is suspended. *)
Inductive Phase :=
| AwaitingResponse         (* at [await fetch(...)] *)
| AwaitingBody.            (* at [await response.json()] *)

(** The script's module-level variables. *)
Record Vars := {
  stream : option MediaStream;
  isDetecting : bool;
  latestPredictions : Json;
  predictionIntervalId : option nat
}.

(** The page elements the script touches. *)
Record Page := {
  startButton_disabled : bool;
  stopButton_disabled : bool;
  statusText : StatusContent;
  video_srcObject : option MediaStream;
  video_listeners : nat;            (* 'loadedmetadata' listeners added *)
  ctx : Context2D;
  canvas : list DrawOp
}.

(** What the browser holds for the script. *)
Record Browser := {
  intervals : gset nat;             (* live [setInterval] ids *)
  next_interval : nat;
  raf_pending : nat;                (* [renderLoop] callbacks queued for the next frame *)
  gum_pending : nat;                (* unsettled [getUserMedia] promises *)
  requests : gmap nat Phase;        (* suspended [predictionLoop] activations *)
  next_request : nat;
  ended_tracks : gset nat
}.

Record State := {
  vars : Vars;
  page : Page;
  browser : Browser
}.

Definition upd_vars (f : Vars -> Vars) (s : State) : State :=
  {| vars := f (vars s); page := page s; browser := browser s |}.
Definition upd_page (f : Page -> Page) (s : State) : State :=
  {| vars := vars s; page := f (page s); browser := browser s |}.
Definition upd_browser (f : Browser -> Browser) (s : State) : State :=
  {| vars := vars s; page := page s; browser := f (browser s) |}.

Definition set_stream (v : option MediaStream) (s : State) : State :=
  upd_vars (fun r => {| stream := v; isDetecting := isDetecting r;
    latestPredictions := latestPredictions r;
    predictionIntervalId := predictionIntervalId r |}) s.
Definition set_isDetecting (v : bool) (s : State) : State :=
  upd_vars (fun r => {| stream := stream r; isDetecting := v;
    latestPredictions := latestPredictions r;
    predictionIntervalId := predictionIntervalId r |}) s.
Definition set_latestPredictions (v : Json) (s : State) : State :=
  upd_vars (fun r => {| stream := stream r; isDetecting := isDetecting r;
    latestPredictions := v; predictionIntervalId := predictionIntervalId r |}) s.
Definition set_predictionIntervalId (v : option nat) (s : State) : State :=
  upd_vars (fun r => {| stream := stream r; isDetecting := isDetecting r;
    latestPredictions := latestPredictions r; predictionIntervalId := v |}) s.

Definition set_startButton_disabled (v : bool) (s : State) : State :=
  upd_page (fun r => {| startButton_disabled := v;
    stopButton_disabled := stopButton_disabled r; statusText := statusText r;
    video_srcObject := video_srcObject r; video_listeners := video_listeners r;
    ctx := ctx r; canvas := canvas r |}) s.
Definition set_stopButton_disabled (v : bool) (s : State) : State :=
  upd_page (fun r => {| startButton_disabled := startButton_disabled r;
    stopButton_disabled := v; statusText := statusText r;
    video_srcObject := video_srcObject r; video_listeners := video_listeners r;
    ctx := ctx r; canvas := canvas r |}) s.
Definition set_statusText (v : StatusContent) (s : State) : State :=
  upd_page (fun r => {| startButton_disabled := startButton_disabled r;
    stopButton_disabled := stopButton_disabled r; statusText := v;
    video_srcObject := video_srcObject r; video_listeners := video_listeners r;
    ctx := ctx r; canvas := canvas r |}) s.
Definition set_video_srcObject (v : option MediaStream) (s : State) : State :=
  upd_page (fun r => {| startButton_disabled := startButton_disabled r;
    stopButton_disabled := stopButton_disabled r; statusText := statusText r;
    video_srcObject := v; video_listeners := video_listeners r; ctx := ctx r;
    canvas := canvas r |}) s.
Definition set_video_listeners (v : nat) (s : State) : State :=
  upd_page (fun r => {| startButton_disabled := startButton_disabled r;
    stopButton_disabled := stopButton_disabled r; statusText := statusText r;
    video_srcObject := video_srcObject r; video_listeners := v; ctx := ctx r;
    canvas := canvas r |}) s.
Definition set_ctx (v : Context2D) (s : State) : State :=
  upd_page (fun r => {| startButton_disabled := startButton_disabled r;
    stopButton_disabled := stopButton_disabled r; statusText := statusText r;
    video_srcObject := video_srcObject r; video_listeners := video_listeners r; ctx := v;
    canvas := canvas r |}) s.
Definition set_canvas (v : list DrawOp) (s : State) : State :=
  upd_page (fun r => {| startButton_disabled := startButton_disabled r;
    stopButton_disabled := stopButton_disabled r; statusText := statusText r;
    video_srcObject := video_srcObject r; video_listeners := video_listeners r;
    ctx := ctx r; canvas := v |}) s.

Definition set_intervals (v : gset nat) (s : State) : State :=
  upd_browser (fun r => {| intervals := v; next_interval := next_interval r;
    raf_pending := raf_pending r; gum_pending := gum_pending r; requests := requests r;
    next_request := next_request r; ended_tracks := ended_tracks r |}) s.
Definition set_next_interval (v : nat) (s : State) : State :=
  upd_browser (fun r => {| intervals := intervals r; next_interval := v;
    raf_pending := raf_pending r; gum_pending := gum_pending r; requests := requests r;
    next_request := next_request r; ended_tracks := ended_tracks r |}) s.
Definition set_raf_pending (v : nat) (s : State) : State :=
  upd_browser (fun r => {| intervals := intervals r; next_interval := next_interval r;
    raf_pending := v; gum_pending := gum_pending r; requests := requests r;
    next_request := next_request r; ended_tracks := ended_tracks r |}) s.
Definition set_gum_pending (v : nat) (s : State) : State :=
  upd_browser (fun r => {| intervals := intervals r; next_interval := next_interval r;
    raf_pending := raf_pending r; gum_pending := v; requests := requests r;
    next_request := next_request r; ended_tracks := ended_tracks r |}) s.
Definition set_requests (v : gmap nat Phase) (s : State) : State :=
  upd_browser (fun r => {| intervals := intervals r; next_interval := next_interval r;
    raf_pending := raf_pending r; gum_pending := gum_pending r; requests := v;
    next_request := next_request r; ended_tracks := ended_tracks r |}) s.
Definition set_next_request (v : nat) (s : State) : State :=
  upd_browser (fun r => {| intervals := intervals r; next_interval := next_interval r;
    raf_pending := raf_pending r; gum_pending := gum_pending r; requests := requests r;
    next_request := v; ended_tracks := ended_tracks r |}) s.
Definition set_ended_tracks (v : gset nat) (s : State) : State :=
  upd_browser (fun r => {| intervals := intervals r; next_interval := next_interval r;
    raf_pending := raf_pending r; gum_pending := gum_pending r; requests := requests r;
    next_request := next_request r; ended_tracks := v |}) s.

Definition with_strokeStyle (v : string) (c : Context2D) : Context2D :=
  {| strokeStyle := v; lineWidth := lineWidth c; fillStyle := fillStyle c; font := font c |}.
Definition with_lineWidth (v : float) (c : Context2D) : Context2D :=
  {| strokeStyle := strokeStyle c; lineWidth := v; fillStyle := fillStyle c; font := font c |}.
Definition with_fillStyle (v : string) (c : Context2D) : Context2D :=
  {| strokeStyle := strokeStyle c; lineWidth := lineWidth c; fillStyle := v; font := font c |}.
Definition with_font (v : string) (c : Context2D) : Context2D :=
  {| strokeStyle := strokeStyle c; lineWidth := lineWidth c; fillStyle := fillStyle c; font := v |}.

(** ** The monad of script code

    A computation runs from a state and ends normally or by throwing;
    the state it has reached is kept either way, with the browser calls
    and slot accesses it made, in order. *)

Inductive Completion (A : Type) :=
| Normal (a : A)
| Throw (e : Exn).
Arguments Normal {A} a.
Arguments Throw {A} e.

Record Outcome (A : Type) := {
  completion : Completion A;
  final : State;
  emitted : list Effect
}.
Arguments completion {A} o.
Arguments final {A} o.
Arguments emitted {A} o.

Definition Js (A : Type) : Type := State -> Outcome A.

Definition ret {A} (a : A) : Js A :=
  fun s => {| completion := Normal a; final := s; emitted := [] |}.

Definition bind {A B} (c : Js A) (k : A -> Js B) : Js B :=
  fun s =>
    match c s with
    | {| completion := Normal a; final := s1; emitted := t1 |} =>
        match k a s1 with
        | {| completion := r; final := s2; emitted := t2 |} =>
            {| completion := r; final := s2; emitted := t1 ++ t2 |}
        end
    | {| completion := Throw e; final := s1; emitted := t1 |} =>
        {| completion := Throw e; final := s1; emitted := t1 |}
    end.

Definition throw {A} (e : Exn) : Js A :=
  fun s => {| completion := Throw e; final := s; emitted := [] |}.

(** [try { body } catch (e) { handler e }] *)
Definition try_catch {A} (body : Js A) (handler : Exn -> Js A) : Js A :=
  fun s =>
    match body s with
    | {| completion := Normal a; final := s1; emitted := t1 |} =>
        {| completion := Normal a; final := s1; emitted := t1 |}
    | {| completion := Throw e; final := s1; emitted := t1 |} =>
        match handler e s1 with
        | {| completion := r; final := s2; emitted := t2 |} =>
            {| completion := r; final := s2; emitted := t1 ++ t2 |}
        end
    end.

Declare Scope js_scope.
Delimit Scope js_scope with js.
Bind Scope js_scope with Js.
Notation "x <- c ;; k" := (bind c (fun x => k))
  (at level 100, c at next level, k at level 200, right associativity) : js_scope.
Notation "c ;; k" := (bind c (fun _ => k))
  (at level 100, k at level 200, right associativity) : js_scope.
Open Scope js_scope.

Definition read {A} (f : State -> A) : Js A := fun s => ret (f s) s.
Definition update (f : State -> State) : Js unit :=
  fun s => {| completion := Normal tt; final := f s; emitted := [] |}.
Definition emit (e : Effect) : Js unit :=
  fun s => {| completion := Normal tt; final := s; emitted := [e] |}.

(** [l.forEach(f)] *)
Fixpoint forEach {A} (l : list A) (f : A -> Js unit) : Js unit :=
  match l with
  | [] => ret tt
  | a :: l' => f a ;; forEach l' f
  end.

(** A settled promise, and [await] on it inside an [async] function. *)
Inductive Settled (A : Type) :=
| Fulfilled (a : A)
| Rejected (e : Exn).
Arguments Fulfilled {A} a.
Arguments Rejected {A} e.

Definition await {A} (p : Settled A) : Js A :=
  match p with
  | Fulfilled a => ret a
  | Rejected e => throw e
  end.

(** ** The shared slot [latestPredictions] *)

Definition read_latestPredictions (who : Component) : Js Json :=
  emit (SlotRead who) ;; read (fun s => latestPredictions (vars s)).

Definition write_latestPredictions (who : Component) (v : Json) : Js unit :=
  emit (SlotWrite who v) ;; update (set_latestPredictions v).

(** ** Browser interfaces the script calls *)

Definition console_error (msg : string) (e : Exn) : Js unit :=
  emit (ConsoleError msg e).

(** [navigator.mediaDevices.getUserMedia({ video: true })]: a promise the
    browser settles later. *)
Definition getUserMedia : Js unit :=
  emit CallGetUserMedia ;;
  update (fun s => set_gum_pending (S (gum_pending (browser s))) s).

(** [setInterval(predictionLoop, 1000 / PREDICTION_FPS)] *)
Definition setInterval : Js nat :=
  id <- read (fun s => next_interval (browser s)) ;;
  emit (CallSetInterval id) ;;
  update (fun s => set_next_interval (S id) (set_intervals ({[id]} ∪ intervals (browser s)) s)) ;;
  ret id.

(** [clearInterval(id)]: nothing happens for [null] or an id that is not live. *)
Definition clearInterval (id : option nat) : Js unit :=
  emit (CallClearInterval id) ;;
  match id with
  | Some i => update (fun s => set_intervals (intervals (browser s) ∖ {[i]}) s)
  | None => ret tt
  end.

(** [requestAnimationFrame(renderLoop)] *)
Definition requestAnimationFrame : Js unit :=
  emit CallRequestAnimationFrame ;;
  update (fun s => set_raf_pending (S (raf_pending (browser s))) s).

(** [o.getTracks()]: a [TypeError] when [o] is [null]. *)
Definition getTracks (o : option MediaStream) : Js (list nat) :=
  match o with
  | Some st => ret (tracks st)
  | None => throw (TypeError "Cannot read properties of null (reading 'getTracks')")
  end.

(** [track.stop()]: the track is ended; nothing changes when it already is. *)
Definition track_stop (t : nat) : Js unit :=
  emit (CallTrackStop t) ;;
  update (fun s => set_ended_tracks ({[t]} ∪ ended_tracks (browser s)) s).

Definition video_play : Js unit := emit CallVideoPlay.

(** [video.addEventListener('loadedmetadata', () => {...})] *)
Definition video_addEventListener : Js unit :=
  update (fun s => set_video_listeners (S (video_listeners (page s))) s).

(** [fetch('/predict', {... body: JSON.stringify({ image })})]: the request
    is outstanding until the browser settles it. *)
Definition fetch (image : string) : Js nat :=
  req <- read (fun s => next_request (browser s)) ;;
  emit (CallFetch req image) ;;
  update (fun s => set_next_request (S req)
                     (set_requests (<[req := AwaitingResponse]> (requests (browser s))) s)) ;;
  ret req.

(** The drawing context. Assigning [strokeStyle] or [fillStyle] stores
    the serialised colour. *)
Definition ctx_assign (f : Context2D -> Context2D) : Js unit :=
  update (fun s => set_ctx (f (ctx (page s))) s).
Definition assign_strokeStyle (v : string) : Js unit := ctx_assign (with_strokeStyle (css_color v)).
Definition assign_lineWidth (v : float) : Js unit := ctx_assign (with_lineWidth v).
Definition assign_fillStyle (v : string) : Js unit := ctx_assign (with_fillStyle (css_color v)).
Definition assign_font (v : string) : Js unit := ctx_assign (with_font v).
Definition paint (op : DrawOp) : Js unit :=
  update (fun s => set_canvas (canvas (page s) ++ [op]) s).

Definition ctx_drawImage : Js unit := paint DrawImage.
Definition ctx_strokeRect (x y w h : float) : Js unit :=
  c <- read (fun s => ctx (page s)) ;;
  paint (StrokeRect x y w h (strokeStyle c) (lineWidth c)).
Definition ctx_fillRect (x y w h : float) : Js unit :=
  c <- read (fun s => ctx (page s)) ;;
  paint (FillRect x y w h (fillStyle c)).
Definition ctx_fillText (text : string) (x y : float) : Js unit :=
  c <- read (fun s => ctx (page s)) ;;
  paint (FillText text x y (fillStyle c) (font c)).
(** [ctx.clearRect(0, 0, canvas.width, canvas.height)]: the whole surface;
    the context attributes stay. *)
Definition ctx_clearRect : Js unit := update (set_canvas []).

(** [response.ok] *)
Record Response := { status : Z }.
Definition ok (r : Response) : bool := (200 <=? status r) && (status r <=? 299).

(** ** The script *)

(** The text ['Click "Start Detection" to begin.'] *)
Definition idle_prompt : StatusContent :=
  let quote := String (ascii_of_nat 34) EmptyString in
  TextContent ("Click " +:+ quote +:+ "Start Detection" +:+ quote +:+ " to begin.").

(** The markup [`<strong>Error:</strong> Could not access webcam. ...`] *)
Definition webcam_error : StatusContent :=
  InnerHTML "<strong>Error:</strong> Could not access webcam. Please check permissions.".

(** [stopDetection()] *)
Definition stopDetection : Js unit :=
  update (set_isDetecting false) ;;
  update (set_startButton_disabled false) ;;
  update (set_stopButton_disabled true) ;;
  update (set_statusText idle_prompt) ;;
  (* Stop the prediction interval *)
  id <- read (fun s => predictionIntervalId (vars s)) ;;
  clearInterval id ;;
  (* Stop the webcam stream tracks *)
  st <- read (fun s => stream (vars s)) ;;
  (if bool_decide (is_Some st)
   then ts <- getTracks st ;; forEach ts track_stop
   else ret tt) ;;
  update (set_video_srcObject None) ;;
  (* Clear the canvas *)
  write_latestPredictions SessionController (JArray []) ;;
  ctx_clearRect.

(** The ['loadedmetadata'] listener [startDetection] registers. *)
Definition onLoadedMetadata : Js unit :=
  video_play ;;
  update (set_statusText (TextContent "Webcam active. Detecting...")) ;;
  (* Start the two loops *)
  requestAnimationFrame ;;
  id <- setInterval ;;
  update (set_predictionIntervalId (Some id)).

(** [startDetection()], up to its [await]. *)
Definition startDetection : Js unit :=
  update (set_isDetecting true) ;;
  update (set_startButton_disabled true) ;;
  update (set_stopButton_disabled false) ;;
  update (set_statusText (TextContent "Initializing Webcam...")) ;;
  getUserMedia.

(** [startDetection()] resumed when the [getUserMedia] promise settles:
    the rest of the [try] block, and the [catch] block. *)
Definition startDetection_resumed (p : Settled MediaStream) : Js unit :=
  try_catch
    (st <- await p ;;
     update (set_stream (Some st)) ;;
     src <- read (fun s => stream (vars s)) ;;
     update (set_video_srcObject src) ;;
     video_addEventListener)
    (fun err =>
       console_error "Error accessing webcam: " err ;;
       update (set_statusText webcam_error) ;;
       stopDetection (* Reset the state if webcam fails *)).

(** [predictionLoop()], up to [await fetch(...)]; [imageData] is what
    [tempCanvas.toDataURL('image/jpeg')] returned for the frame. *)
Definition predictionLoop (imageData : string) : Js unit :=
  d <- read (fun s => isDetecting (vars s)) ;;
  if negb d then ret tt
  else
    _ <- fetch imageData ;;
    ret tt.

(** The [catch] block of [predictionLoop]. *)
Definition predictionLoop_catch (error : Exn) : Js unit :=
  console_error "Error during prediction:" error ;;
  write_latestPredictions PredictionLoop (JArray []) (* Clear boxes on error *).

(** [predictionLoop()] resumed when the [fetch] promise settles, up to
    [await response.json()]. *)
Definition predictionLoop_response (req : nat) (p : Settled Response) : Js unit :=
  try_catch
    (response <- await p ;;
     (if negb (ok response) then throw (HttpError (status response)) else ret tt) ;;
     update (fun s => set_requests (<[req := AwaitingBody]> (requests (browser s))) s))
    predictionLoop_catch.

(** [predictionLoop()] resumed when the [response.json()] promise settles. *)
Definition predictionLoop_json (p : Settled Json) : Js unit :=
  try_catch
    (v <- await p ;;
     (* Update the global state with the new results *)
     write_latestPredictions PredictionLoop v)
    predictionLoop_catch.

(** The colour rule of the bounding box:
    [label === 'Original' ? '#00FF00' : '#FF0000']. *)
Definition box_color (l : string) : string :=
  if bool_decide (l = "Original") then "#00FF00" else "#FF0000".

(** [o.key] for a parsed value [o]: a TypeError for [null]; no parsed
    value other than an object has one of the keys the script reads. *)
Definition get_property (o : Json) (key : string) : Js Value :=
  match o with
  | JNull => throw (TypeError ("Cannot read properties of null (reading '" +:+ key +:+ "')"))
  | JObject m => ret (member key m None)
  | _ => ret None
  end.

(** [const [x, y, w, h] = v]: a TypeError unless [v] is iterable; the
    names beyond its elements are [undefined]. *)
Definition destructure4 (v : Value) : Js (Value * Value * Value * Value) :=
  match elements v with
  | Some l => ret (l !! 0%nat, l !! 1%nat, l !! 2%nat, l !! 3%nat)
  | None => throw (TypeError "value is not iterable")
  end.

(** [v.forEach]: the elements of an array; a TypeError for every other
    parsed value, which is [null] or has no method [forEach]. *)
Definition array_items (v : Json) : Js (list Json) :=
  match v with
  | JArray l => ret l
  | JNull => throw (TypeError "Cannot read properties of null (reading 'forEach')")
  | _ => throw (TypeError "predictions.forEach is not a function")
  end.

(** [label === 'Original' ? '#00FF00' : '#FF0000'] for a value. *)
Definition value_color (lbl : Value) : string :=
  match lbl with
  | Some (JString l) => box_color l
  | _ => "#FF0000"
  end.

Section Script.

(** [ctx.measureText(text).width] for the given [ctx.font], and the
    engine's conversions between numbers and strings: of the numbers
    [Number.toString] leaves to it, and of every string to a number. *)
Variable measureText : string -> string -> float.
Variable engine_toString : float -> string.
Variable string_to_number : string -> float.

Definition ctx_measureText_width (text : string) : Js float :=
  c <- read (fun s => ctx (page s)) ;;
  ret (measureText (font c) text).

(** The string of a parsed value; an array is its elements joined with
    commas, [null] elements giving the empty string. *)
Fixpoint json_to_string (j : Json) : string :=
  match j with
  | JNull => "null"
  | JBool b => if b then "true" else "false"
  | JNumber x => Number.toString engine_toString x
  | JString s => s
  | JArray items =>
      (fix join (l : list Json) : string :=
         match l with
         | [] => ""
         | e :: l' =>
             (match e with JNull => "" | _ => json_to_string e end)
             +:+ (match l' with [] => "" | _ => "," +:+ join l' end)
         end) items
  | JObject _ => "[object Object]"
  end.

(** [String(v)], as a template literal applies it. *)
Definition ToString (v : Value) : string :=
  match v with
  | None => "undefined"
  | Some j => json_to_string j
  end.

(** [Number(v)], as the arithmetic operators, [>] against a number and
    the arguments of the drawing calls apply it. *)
Definition ToNumber (v : Value) : float :=
  match v with
  | None => PrimFloat.nan
  | Some JNull => 0%float
  | Some (JBool b) => if b then 1%float else 0%float
  | Some (JNumber x) => x
  | Some (JString s) => string_to_number s
  | Some (JArray l) => string_to_number (json_to_string (JArray l))
  | Some (JObject _) => PrimFloat.nan
  end.

(** The number a drawing call receives for [v + n]: [+] concatenates
    when [v] is a string, an array or an object, and adds otherwise. *)
Definition plus (v : Value) (n : float) : float :=
  match v with
  | Some (JString _) | Some (JArray _) | Some (JObject _) =>
      string_to_number (ToString v +:+ Number.toString engine_toString n)
  | _ => (ToNumber v + n)%float
  end.

(** The label text [`${label}: ${Math.round(confidence * 100)}%`]. *)
Definition label_text (l : string) (c : float) : string :=
  l +:+ ": " +:+ Number.toString engine_toString (Number.Math_round (c * 100)%float) +:+ "%".

(** The body of the [forEach] in [drawPredictions]. *)
Definition drawPrediction (pred : Json) : Js unit :=
  b <- get_property pred "box" ;;
  xywh <- destructure4 b ;;
  let '(x, y, w, h) := xywh in
  lbl <- get_property pred "label" ;;
  conf <- get_property pred "confidence" ;;
  (* Bounding box styling *)
  assign_strokeStyle (value_color lbl) ;;
  assign_lineWidth 3%float ;;
  ctx_strokeRect (ToNumber x) (ToNumber y) (ToNumber w) (ToNumber h) ;;
  (* Text styling *)
  let text := label_text (ToString lbl) (ToNumber conf) in
  let textBgHeight := 24%float in
  c <- read (fun s => ctx (page s)) ;;
  assign_fillStyle (strokeStyle c) ;;
  tw <- ctx_measureText_width text ;;
  ctx_fillRect (ToNumber x)
               (if (textBgHeight <? ToNumber y)%float
                then (ToNumber y - textBgHeight)%float else ToNumber y)
               (tw + 10)%float textBgHeight ;;
  assign_fillStyle "#FFFFFF" (* White text *) ;;
  assign_font "18px Arial" ;;
  ctx_fillText text (plus x 5%float)
               (if (textBgHeight <? ToNumber y)%float
                then (ToNumber y - 5)%float else 18%float).

(** [drawPredictions(predictions)] *)
Definition drawPredictions (predictions : Json) : Js unit :=
  items <- array_items predictions ;;
  forEach items drawPrediction ;;
  d <- read (fun s => isDetecting (vars s)) ;;
  if d
  then update (set_statusText
                 (TextContent (if (0 <? length items)%nat
                               then "Detection active."
                               else "No face detected. Looking...")))
  else ret tt.

(** [renderLoop()] *)
Definition renderLoop : Js unit :=
  d <- read (fun s => isDetecting (vars s)) ;;
  if negb d then ret tt
  else
    (* Draw the current video frame *)
    ctx_drawImage ;;
    (* Draw the latest predictions on top of the video *)
    preds <- read_latestPredictions RenderLoop ;;
    drawPredictions preds ;;
    (* Continue the loop *)
    requestAnimationFrame.

(** ** Events *)

Inductive Event :=
| ClickStart
| ClickStop
| GetUserMediaSettled (p : Settled MediaStream)
| LoadedMetadata
| AnimationFrame
| IntervalFired (id : nat) (imageData : string)
| FetchSettled (req : nat) (p : Settled Response)
| JsonSettled (req : nat) (p : Settled Json).

(** The browser runs each queued callback on its own: an exception
    that escapes one is reported and the others still run. *)
Fixpoint callbacks (n : nat) (f : Js unit) : Js unit :=
  match n with
  | O => ret tt
  | S n' => try_catch f (fun _ => ret tt) ;; callbacks n' f
  end.

(** What the page does for one event. A click on a disabled button, a
    timer that is not live and a settlement nothing waits for do
    nothing. *)
Definition handle (ev : Event) : Js unit :=
  match ev with
  | ClickStart =>
      off <- read (fun s => startButton_disabled (page s)) ;;
      if off then ret tt else startDetection
  | ClickStop =>
      off <- read (fun s => stopButton_disabled (page s)) ;;
      if off then ret tt else stopDetection
  | GetUserMediaSettled p =>
      n <- read (fun s => gum_pending (browser s)) ;;
      match n with
      | O => ret tt
      | S n' => update (set_gum_pending n') ;; startDetection_resumed p
      end
  | LoadedMetadata =>
      src <- read (fun s => video_srcObject (page s)) ;;
      n <- read (fun s => video_listeners (page s)) ;;
      if bool_decide (is_Some src) then callbacks n onLoadedMetadata else ret tt
  | AnimationFrame =>
      n <- read (fun s => raf_pending (browser s)) ;;
      update (set_raf_pending 0) ;;
      callbacks n renderLoop
  | IntervalFired id imageData =>
      live <- read (fun s => bool_decide (id ∈ intervals (browser s))) ;;
      if live then predictionLoop imageData else ret tt
  | FetchSettled req p =>
      ph <- read (fun s => requests (browser s) !! req) ;;
      match ph with
      | Some AwaitingResponse =>
          update (fun s => set_requests (delete req (requests (browser s))) s) ;;
          predictionLoop_response req p
      | _ => ret tt
      end
  | JsonSettled req p =>
      ph <- read (fun s => requests (browser s) !! req) ;;
      match ph with
      | Some AwaitingBody =>
          update (fun s => set_requests (delete req (requests (browser s))) s) ;;
          predictionLoop_json p
      | _ => ret tt
      end
  end.

Definition step (ev : Event) (s : State) : State := final (handle ev s).

Fixpoint run (evs : list Event) (s : State) : State :=
  match evs with
  | [] => s
  | ev :: evs' => run evs' (step ev s)
  end.

(** The calls and slot accesses of a whole execution, in order. *)
Fixpoint trace (evs : list Event) (s : State) : list Effect :=
  match evs with
  | [] => []
  | ev :: evs' => emitted (handle ev s) ++ trace evs' (step ev s)
  end.

End Script.

(** The state when the script has been loaded. The initial state of the
    two buttons and of the status element is the markup's. *)
Definition loaded (start_disabled stop_disabled : bool) (status : StatusContent) : State :=
  {| vars := {| stream := None; isDetecting := false;
                latestPredictions := JArray []; predictionIntervalId := None |};
     page := {| startButton_disabled := start_disabled;
                stopButton_disabled := stop_disabled;
                statusText := status;
                video_srcObject := None; video_listeners := 0;
                ctx := fresh_context; canvas := [] |};
     browser := {| intervals := ∅; next_interval := 1; raf_pending := 0;
                   gum_pending := 0; requests := ∅; next_request := 0;
                   ended_tracks := ∅ |} |}.

(** ** Inputs of the properties below *)

(** [{box: [10, 20, 30, 40], label: "Original", confidence: 0.97}] *)
Definition sample_detection : Detection :=
  {| box := (10, 20, 30, 40)%float; label := "Original"; confidence := 0.97%float |}.

(** The colours as painted: the one of the authentic label and the one
    of every other label. *)
Definition authentic_color : string := css_color "#00FF00".

(** One rendering of [predictions] on a cleared surface. *)
Definition render_cleared (measureText : string -> string -> float)
    (engine_toString : float -> string) (string_to_number : string -> float)
    (predictions : Json) : Js unit :=
  ctx_clearRect ;; drawPredictions measureText engine_toString string_to_number predictions.

(** Text metrics that grow with the font size: half the pixel size per
    character for the two fonts that occur, 10px and 18px. *)
Definition sample_measureText (fnt text : string) : float :=
  let n := Number.of_Z (Z.of_nat (String.length text)) in
  if bool_decide (fnt = "18px Arial") then (9 * n)%float else (5 * n)%float.

Definition sample_toString (x : float) : string := "?".

(** No instance below converts a string to a number. *)
Definition sample_string_to_number (s : string) : float := PrimFloat.nan.

(** The parsed values [drawPredictions] draws to the end: the arrays of
    objects whose [box] is iterable. *)
Definition drawable_item (pred : Json) : bool :=
  match pred with
  | JObject m =>
      match elements (member "box" m None) with
      | Some _ => true
      | None => false
      end
  | _ => false
  end.

Definition drawable (predictions : Json) : bool :=
  match predictions with
  | JArray l => forallb drawable_item l
  | _ => false
  end.

(** Nothing but the drawing context and the surface changes from [s]
    to [s'], and nothing on the surface is erased. *)
Definition draws_only (s s' : State) : Prop :=
  vars s' = vars s
  /\ browser s' = browser s
  /\ startButton_disabled (page s') = startButton_disabled (page s)
  /\ stopButton_disabled (page s') = stopButton_disabled (page s)
  /\ statusText (page s') = statusText (page s)
  /\ video_srcObject (page s') = video_srcObject (page s)
  /\ video_listeners (page s') = video_listeners (page s)
  /\ exists new : list DrawOp, canvas (page s') = canvas (page s) ++ new.

(** Nothing but the drawing context, the surface and the status
    changes from [s] to [s']; nothing on the surface is erased, and the
    status is kept or is one of the two texts of [drawPredictions]. *)
Definition overlay_only (s s' : State) : Prop :=
  vars s' = vars s
  /\ browser s' = browser s
  /\ startButton_disabled (page s') = startButton_disabled (page s)
  /\ stopButton_disabled (page s') = stopButton_disabled (page s)
  /\ video_srcObject (page s') = video_srcObject (page s)
  /\ video_listeners (page s') = video_listeners (page s)
  /\ (exists new : list DrawOp, canvas (page s') = canvas (page s) ++ new)
  /\ (statusText (page s') = statusText (page s)
      \/ statusText (page s') = TextContent "Detection active."
      \/ statusText (page s') = TextContent "No face detected. Looking...").

(** A computation that ends by throwing a TypeError. *)
Definition throws_TypeError {A} (o : Outcome A) : Prop :=
  exists msg : string, completion o = Throw (TypeError msg).

(** What [drawPrediction] paints for a detection when the context font
    is [fnt] on entry; the fill colour is the stroke colour as read back
    from the context. *)
Definition ops_of_detection (measureText : string -> string -> float)
    (engine_toString : float -> string) (fnt : string) (pred : Detection) : list DrawOp :=
  let '(x, y, w, h) := box pred in
  let text := label_text engine_toString (label pred) (confidence pred) in
  let color := css_color (box_color (label pred)) in
  [StrokeRect x y w h color 3%float;
   FillRect x (if (24 <? y)%float then (y - 24)%float else y)
            (measureText fnt text + 10)%float 24%float (css_color color);
   FillText text (x + 5)%float (if (24 <? y)%float then (y - 5)%float else 18%float)
            (css_color "#FFFFFF") "18px Arial"].

(** What [drawPredictions] paints for a list: the first detection is
    measured in the font found, the others in the label font. *)
Fixpoint ops_of_list (measureText : string -> string -> float)
    (engine_toString : float -> string) (fnt : string) (D : list Detection) : list DrawOp :=
  match D with
  | [] => []
  | pred :: D' =>
      ops_of_detection measureText engine_toString fnt pred
      ++ ops_of_list measureText engine_toString "18px Arial" D'
  end.

(** A camera with one video track, and the page as loaded with the
    start button enabled and the stop button disabled. *)
Definition camera : MediaStream := {| stream_id := 1; tracks := [7%nat] |}.
Definition page_loaded : State := loaded false true idle_prompt.

(** A prediction request that fails: the transport failed or the status
    is not a success status. *)
Definition failed (p : Settled Response) : bool :=
  match p with
  | Rejected _ => true
  | Fulfilled r => negb (ok r)
  end.

(** The error the [catch] block of [predictionLoop] receives for it. *)
Definition failure_of (p : Settled Response) : Exn :=
  match p with
  | Rejected e => e
  | Fulfilled r => HttpError (status r)
  end.

(** The slot discipline in the words of the specification: written only
    by the prediction loop, read only by the render loop. *)
Definition slot_access_claimed (e : Effect) : Prop :=
  match e with
  | SlotRead who => who = RenderLoop
  | SlotWrite who _ => who = PredictionLoop
  | _ => True
  end.

(** The slot discipline of the script: the session controller writes the
    slot too, always with the empty list. *)
Definition slot_access (e : Effect) : Prop :=
  match e with
  | SlotRead who => who = RenderLoop
  | SlotWrite who v => who = PredictionLoop \/ (who = SessionController /\ v = JArray [])
  | _ => True
  end.

(** The events whose handlers can assign the slot: the two resumptions of
    [predictionLoop], and those that can reach [stopDetection]. *)
Definition may_write_slot (ev : Event) : bool :=
  match ev with
  | FetchSettled _ _ | JsonSettled _ _ => true
  | ClickStop | GetUserMediaSettled (Rejected _) => true
  | _ => false
  end.

(** The active flag is never seen set without a stream held, at any
    point of the execution [evs] from [s]. *)
Definition active_only_with_stream (run : list Event -> State -> State)
    (evs : list Event) (s : State) : Prop :=
  forall k : nat,
    isDetecting (vars (run (take k evs) s)) = true ->
    stream (vars (run (take k evs) s)) <> None.




(** A body that parses and is no list of detections:
    [{error: "No image data"}]. *)
Definition error_body : Json := JObject [("error", JString "No image data")].

(** Executions with the sample text metrics. *)
Definition sample_step : Event -> State -> State := step sample_measureText sample_toString sample_string_to_number.
Definition sample_run : list Event -> State -> State := run sample_measureText sample_toString sample_string_to_number.
Definition sample_trace : list Event -> State -> list Effect :=
  trace sample_measureText sample_toString sample_string_to_number.

(** The frame snapshot a timer activation sends. *)
Definition sample_image : string := "data:image/jpeg;base64,/9j/4AAQ".

(** A session that has started: the camera was granted and the video
    has its metadata, so both loops are running. *)
Definition session_started : State :=
  sample_run [ClickStart; GetUserMediaSettled (Fulfilled camera); LoadedMetadata] page_loaded.

(** The tracks of the stream the script holds. *)
Definition held_tracks (s : State) : list nat :=
  match stream (vars s) with
  | Some st => tracks st
  | None => []
  end.

(** The state [stopDetection] leaves, field by field. *)
Definition stopped (s : State) : State :=
  {| vars := {| stream := stream (vars s); isDetecting := false;
                latestPredictions := JArray [];
                predictionIntervalId := predictionIntervalId (vars s) |};
     page := {| startButton_disabled := false; stopButton_disabled := true;
                statusText := idle_prompt;
                video_srcObject := None; video_listeners := video_listeners (page s);
                ctx := ctx (page s); canvas := [] |};
     browser := {| intervals := match predictionIntervalId (vars s) with
                                | Some i => intervals (browser s) ∖ {[i]}
                                | None => intervals (browser s)
                                end;
                   next_interval := next_interval (browser s);
                   raf_pending := raf_pending (browser s);
                   gum_pending := gum_pending (browser s);
                   requests := requests (browser s);
                   next_request := next_request (browser s);
                   ended_tracks := list_to_set (held_tracks s) ∪ ended_tracks (browser s) |} |}.

(** The tracks [track.stop()] was called on, in order. *)
Definition track_stops (t : list Effect) : list nat :=
  omap (fun e => match e with CallTrackStop t => Some t | _ => None end) t.

(** No duplicate cleanup, in the words of the specification: called
    from [s], [stopDetection] stops no track that has already ended. *)
Definition no_duplicate_cleanup (s : State) : Prop :=
  forall t : nat, t ∈ track_stops (emitted (stopDetection s)) -> t ∉ ended_tracks (browser s).

(** A started session that has been stopped. *)
Definition session_stopped : State := sample_run [ClickStop] session_started.

(** A session stopped while its first prediction request is outstanding. *)
Definition stopped_with_request : State :=
  sample_run [IntervalFired 1 sample_image; ClickStop] session_started.


(** A started session whose first prediction request has been answered
    with status 200 and that body. *)
Definition error_body_stored : State :=
  sample_run [IntervalFired 1 sample_image;
              FetchSettled 0 (Fulfilled {| status := 200 |});
              JsonSettled 0 (Fulfilled error_body)]
             session_started.

(** A session with a detection in the slot and a second prediction
    request outstanding. *)
Definition detecting_with_request : State :=
  sample_run [IntervalFired 1 sample_image;
              FetchSettled 0 (Fulfilled {| status := 200 |});
              JsonSettled 0 (Fulfilled (detections [sample_detection]));
              IntervalFired 1 sample_image]
             session_started.

(** A second camera, for a second session. *)
Definition second_camera : MediaStream := {| stream_id := 2; tracks := [8%nat] |}.

(** A relation between the state before and after a computation, and a
    property of everything it emits. *)
Definition respects {A} (R : State -> State -> Prop) (P : Effect -> Prop) (c : Js A) : Prop :=
  forall s, R s (final (c s)) /\ Forall P (emitted (c s)).

(** The relations and the property used with it. *)
Definition any_state : State -> State -> Prop := fun _ _ => True.
Definition any_effect : Effect -> Prop := fun _ => True.
Definition same_slot : State -> State -> Prop :=
  fun s s' => latestPredictions (vars s') = latestPredictions (vars s).
Definition queue_grows : State -> State -> Prop :=
  fun s s' => (raf_pending (browser s) <= raf_pending (browser s'))%nat.

(** ** Further notions *)

(** The queue of render-loop activations is as long in [s'] as in [s]. *)
Definition same_queue : State -> State -> Prop :=
  fun s s' => raf_pending (browser s') = raf_pending (browser s).

Definition is_LoadedMetadata (ev : Event) : bool :=
  match ev with
  | LoadedMetadata => true
  | _ => false
  end.

(** The state after the display refresh in which the render loop met
    the error body. *)
Definition render_loop_ended : State := sample_step AnimationFrame error_body_stored.

Definition is_StrokeRect (op : DrawOp) : bool :=
  match op with
  | StrokeRect _ _ _ _ _ _ => true
  | _ => false
  end.

(** The bounding box of a detection as [drawPredictions] strokes it. *)
Definition box_op (pred : Detection) : DrawOp :=
  let '(x, y, w, h) := box pred in
  StrokeRect x y w h (css_color (box_color (label pred))) 3%float.

(** The context attributes after the detections [D] have been drawn from
    a context [c]: those the last detection left. *)
Definition context_after (c : Context2D) (D : list Detection) : Context2D :=
  match last D with
  | None => c
  | Some pred =>
      {| strokeStyle := css_color (box_color (label pred)); lineWidth := 3%float;
         fillStyle := css_color "#FFFFFF"; font := "18px Arial" |}
  end.

(** The status text [drawPredictions] assigns for a list. *)
Definition detection_status (D : list Detection) : StatusContent :=
  TextContent (match D with
               | [] => "No face detected. Looking..."
               | _ => "Detection active."
               end).

(** A property of states as a relation: it is kept from [s] to [s']. *)
Definition keeps (Inv : State -> Prop) : State -> State -> Prop :=
  fun s s' => Inv s -> Inv s'.

(** While the active flag is set the start button is disabled and the
    stop button enabled. *)
Definition stop_available (s : State) : Prop :=
  isDetecting (vars s) = true ->
  startButton_disabled (page s) = true /\ stopButton_disabled (page s) = false.

(** While the active flag is cleared nothing is painted on the surface. *)
Definition clear_when_inactive (s : State) : Prop :=
  isDetecting (vars s) = false -> canvas (page s) = [].

(** The status texts the script assigns with [textContent], with the one
    the markup gives. *)
Definition script_statuses (markup : StatusContent) : list StatusContent :=
  [markup; idle_prompt;
   TextContent "Initializing Webcam...";
   TextContent "Webcam active. Detecting...";
   TextContent "Detection active.";
   TextContent "No face detected. Looking..."].

Definition status_known (markup : StatusContent) (s : State) : Prop :=
  statusText (page s) ∈ script_statuses markup.

(** The stream handle and the timer id are still held in [s'] when they
    are in [s]. *)
Definition handles_kept : State -> State -> Prop :=
  fun s s' =>
    (is_Some (stream (vars s)) -> is_Some (stream (vars s')))
    /\ (is_Some (predictionIntervalId (vars s)) -> is_Some (predictionIntervalId (vars s'))).

(** The browser hands out request and timer ids in increasing order:
    those in use lie below the next ones. *)
Definition ids_fresh (s : State) : Prop :=
  (forall r : nat, is_Some (requests (browser s) !! r) -> (r < next_request (browser s))%nat)
  /\ (forall i : nat, i ∈ intervals (browser s) -> (i < next_interval (browser s))%nat).

(** No listener is removed from the video element. *)
Definition listeners_kept : State -> State -> Prop :=
  fun s s' => (video_listeners (page s) <= video_listeners (page s'))%nat.

(** A second start whose camera has been granted, after a first session
    that was started and stopped. *)
Definition second_start_granted : State :=
  sample_run [ClickStop; ClickStart; GetUserMediaSettled (Fulfilled second_camera)]
             session_started.

(** Two requests of a started session, both waiting for their bodies. *)
Definition two_bodies_awaited : State :=
  sample_run [IntervalFired 1 sample_image; IntervalFired 1 sample_image;
              FetchSettled 0 (Fulfilled {| status := 200 |});
              FetchSettled 1 (Fulfilled {| status := 200 |})]
             session_started.

(** The requests sent in a trace, and the timer activations and the
    clicks on start among the events of an execution. *)
Definition is_fetch (e : Effect) : bool :=
  match e with
  | CallFetch _ _ => true
  | _ => false
  end.

Definition is_getUserMedia (e : Effect) : bool :=
  match e with
  | CallGetUserMedia => true
  | _ => false
  end.

Definition is_timer (ev : Event) : bool :=
  match ev with
  | IntervalFired _ _ => true
  | _ => false
  end.

Definition is_start_click (ev : Event) : bool :=
  match ev with
  | ClickStart => true
  | _ => false
  end.

Definition count {A} (f : A -> bool) (l : list A) : nat :=
  length (filter (fun a => f a = true) l).

(** The confidence the service sends for a whole percentage [p]: the
    binary64 number nearest to [p / 100]. *)
Definition percent_confidence (p : nat) : float :=
  (Number.of_Z (Z.of_nat p) / 100)%float.

(** Whether the label text shows [p] for it. *)
Definition shows_percent (engine_toString : float -> string) (p : nat) : bool :=
  String.eqb
    (Number.toString engine_toString
       (Number.Math_round (percent_confidence p * 100)%float))
    (pretty p).

(** * Properties *)

(** ** Numbers *)

Example Math_round_97 : Number.Math_round (0.97 * 100)%float = 97%float.
Proof. reflexivity. Qed.

Example Math_round_ties_up :
  Number.Math_round 2.5%float = 3%float /\ Number.Math_round (-1.5)%float = (-1)%float.
Proof. split; reflexivity. Qed.

Example Math_round_below_half : Number.Math_round 0.49999999999999994%float = 0%float.
Proof. reflexivity. Qed.

Example toString_97 (engine_toString : float -> string) :
  Number.toString engine_toString 97%float = "97".
Proof. reflexivity. Qed.

(** ** Sequencing *)

Lemma bind_normal {A B} (c : Js A) (k : A -> Js B) (s : State) (a : A) :
  completion (c s) = Normal a ->
  bind c k s
  = {| completion := completion (k a (final (c s)));
       final := final (k a (final (c s)));
       emitted := emitted (c s) ++ emitted (k a (final (c s))) |}.
Proof.
  intros H. unfold bind. destruct (c s) as [r s1 t1]. cbn in H |- *. subst r.
  destruct (k a s1); reflexivity.
Qed.


Lemma bind_ret {A B} (a : A) (k : A -> Js B) (s : State) : bind (ret a) k s = k a s.
Proof. unfold bind, ret. destruct (k a s); reflexivity. Qed.

Lemma bind_update {B} (f : State -> State) (k : unit -> Js B) (s : State) :
  bind (update f) k s = k tt (f s).
Proof. unfold bind, update. destruct (k tt (f s)); reflexivity. Qed.




Lemma try_catch_normal {A} (c : Js A) (h : Exn -> Js A) (s : State) (a : A) :
  completion (c s) = Normal a -> try_catch c h s = c s.
Proof.
  intros H. unfold try_catch. destruct (c s) as [r s1 t1]. cbn in H. subst r. reflexivity.
Qed.

(** ** The overlay renderer *)

#[global] Instance draws_only_preorder : PreOrder draws_only.
Proof.
  split.
  - intros s. unfold draws_only. repeat split; try reflexivity.
    exists []. rewrite app_nil_r. reflexivity.
  - intros s1 s2 s3 (H1 & H2 & H3 & H4 & H5 & H6 & H7 & new1 & H8)
      (I1 & I2 & I3 & I4 & I5 & I6 & I7 & new2 & I8).
    unfold draws_only. repeat split; try congruence.
    exists (new1 ++ new2). rewrite I8, H8, app_assoc. reflexivity.
Qed.

Section Renderer.
Variable measureText : string -> string -> float.
Variable engine_toString : float -> string.
Variable string_to_number : string -> float.

(** An entry as the interface of the service has it is read back
    field by field. *)
Lemma drawPrediction_spec pred s :
  let o := drawPrediction measureText engine_toString string_to_number
             (json_of_detection pred) s in
  completion o = Normal tt
  /\ emitted o = []
  /\ vars (final o) = vars s
  /\ browser (final o) = browser s
  /\ font (ctx (page (final o))) = "18px Arial"
  /\ canvas (page (final o))
     = canvas (page s)
       ++ ops_of_detection measureText engine_toString (font (ctx (page s))) pred.
Proof.
  destruct pred as [[[[x y] w] h] l c]. destruct s as [v p b].
  cbn -[label_text css_color box_color]. rewrite <- !app_assoc.
  repeat split; reflexivity.
Qed.

Lemma forEach_drawPrediction D : forall s,
  let o := forEach (map json_of_detection D)
             (drawPrediction measureText engine_toString string_to_number) s in
  completion o = Normal tt
  /\ emitted o = []
  /\ vars (final o) = vars s
  /\ browser (final o) = browser s
  /\ font (ctx (page (final o))) = match D with [] => font (ctx (page s)) | _ => "18px Arial" end
  /\ canvas (page (final o))
     = canvas (page s)
       ++ ops_of_list measureText engine_toString (font (ctx (page s))) D.
Proof.
  induction D as [|pred D IH]; intros s.
  - cbn. rewrite app_nil_r. repeat split; reflexivity.
  - pose proof (drawPrediction_spec pred s) as H.
    cbv zeta in H. destruct H as (Hc & He & Hv & Hb & Hf & Hk).
    specialize (IH (final (drawPrediction measureText engine_toString string_to_number
                             (json_of_detection pred) s))).
    cbv zeta in IH. destruct IH as (Ic & Ie & Iv & Ib & If & Ik).
    cbn [forEach map]. rewrite (bind_normal _ _ _ _ Hc). cbn [completion final emitted].
    rewrite Ic, Ie, He, Iv, Ib, Hv, Hb, Ik, Hk, Hf.
    repeat split; try reflexivity.
    + destruct D; [exact Hf | exact If].
    + cbn [ops_of_list]. rewrite app_assoc. reflexivity.
Qed.

(** For a list of entries as the interface of the service has them,
    [drawPredictions] does not throw, calls nothing, and paints
    [ops_of_list] over what is on the surface. *)
Lemma drawPredictions_spec D s :
  let o := drawPredictions measureText engine_toString string_to_number (detections D) s in
  completion o = Normal tt
  /\ emitted o = []
  /\ vars (final o) = vars s
  /\ browser (final o) = browser s
  /\ font (ctx (page (final o))) = match D with [] => font (ctx (page s)) | _ => "18px Arial" end
  /\ canvas (page (final o))
     = canvas (page s)
       ++ ops_of_list measureText engine_toString (font (ctx (page s))) D.
Proof.
  pose proof (forEach_drawPrediction D s) as H. cbv zeta in H.
  destruct H as (Hc & He & Hv & Hb & Hf & Hk).
  unfold drawPredictions, detections, array_items. rewrite bind_ret.
  rewrite (bind_normal _ _ _ _ Hc).
  cbn [completion final emitted]. unfold bind, read, ret. cbn [completion final emitted].
  rewrite Hv, He. destruct (isDetecting (vars s)); cbn; rewrite ?Hv, ?Hb, ?Hk, ?Hf;
    repeat split; reflexivity.
Qed.

(** An element of any shape: it is drawn to the end when its [box] is
    iterable, and a TypeError is thrown before anything is painted
    otherwise. Nothing but the context and the surface changes. *)
Lemma drawPrediction_any pred s :
  let o := drawPrediction measureText engine_toString string_to_number pred s in
  emitted o = []
  /\ draws_only s (final o)
  /\ (if drawable_item pred then completion o = Normal tt
      else throws_TypeError o /\ final o = s).
Proof.
  cbv zeta. destruct s as [v [sb tb tx so vl cx cv] b].
  unfold draws_only, throws_TypeError.
  destruct pred as [| | | | |m]; cbn [drawable_item];
    try (cbn; repeat split; eauto; exists []; rewrite app_nil_r; reflexivity).
  unfold drawPrediction, get_property, destructure4. rewrite bind_ret.
  destruct (elements (member "box" m None)) as [l|].
  - cbn. repeat split; try reflexivity. eexists. rewrite <- !app_assoc. reflexivity.
  - cbn. repeat split; eauto. exists []. rewrite app_nil_r. reflexivity.
Qed.

Lemma forEach_drawPrediction_any items : forall s,
  let o := forEach items (drawPrediction measureText engine_toString string_to_number) s in
  emitted o = []
  /\ draws_only s (final o)
  /\ (if forallb drawable_item items then completion o = Normal tt else throws_TypeError o).
Proof.
  induction items as [|pred items IH]; intros s; cbv zeta.
  - cbn. split; [reflexivity|]. split; [reflexivity|reflexivity].
  - destruct (drawPrediction_any pred s) as (He & Hd & Hc).
    cbn [forEach forallb]. unfold bind.
    destruct (drawPrediction _ _ _ pred s) as [r s1 t1]. cbn [completion final emitted] in *.
    subst t1. destruct (drawable_item pred); cbn [andb].
    + subst r. destruct (IH s1) as (Ie & Id & Ic).
      destruct (forEach items _ s1) as [r2 s2 t2]. cbn [completion final emitted] in *.
      subst t2. split; [reflexivity|]. split; [|exact Ic].
      etransitivity; eassumption.
    + destruct Hc as [[msg Hc] _]. cbn [completion] in Hc. subst r.
      cbn [completion final emitted]. split; [reflexivity|]. split; [exact Hd|].
      exists msg. reflexivity.
Qed.

(** A parsed value of any shape: it is drawn to the end exactly when it
    is [drawable]; otherwise a TypeError is thrown and the status is not
    set. No call is made and no variable of the script changes either
    way. *)
Lemma drawPredictions_any predictions s :
  let o := drawPredictions measureText engine_toString string_to_number predictions s in
  emitted o = []
  /\ overlay_only s (final o)
  /\ (if drawable predictions
      then completion o = Normal tt
      else throws_TypeError o /\ statusText (page (final o)) = statusText (page s)).
Proof.
  cbv zeta. unfold throws_TypeError, overlay_only.
  destruct predictions as [| | | |items|];
    try (cbn; repeat split; eauto; exists []; rewrite app_nil_r; reflexivity).
  unfold drawPredictions, array_items. rewrite bind_ret. cbn [drawable].
  destruct (forEach_drawPrediction_any items s) as (He & Hd & Hc).
  unfold bind, read, ret.
  destruct (forEach items _ s) as [r s1 t1]. cbn [completion final emitted] in *. subst t1.
  destruct Hd as (Hv & Hb & Hsb & Htb & Hst & Hso & Hvl & Hk).
  destruct (forallb drawable_item items).
  - subst r.
    destruct (isDetecting (vars s1)); cbn; rewrite ?Hv, ?Hb, ?Hsb, ?Htb, ?Hso, ?Hvl;
      repeat split; try reflexivity; try exact Hk; auto.
    destruct items; cbn; auto.
  - destruct Hc as [msg Hc]. cbn [completion] in Hc. subst r. cbn [completion final emitted].
    repeat split; eauto.
Qed.

(** So [drawPredictions] respects every relation that holds between
    two such states, whatever it is given. *)
Lemma drawPredictions_respects (R : State -> State -> Prop) (P : Effect -> Prop) predictions :
  (forall s s', overlay_only s s' -> R s s') ->
  respects R P (drawPredictions measureText engine_toString string_to_number predictions).
Proof.
  intros H s. destruct (drawPredictions_any predictions s) as (He & Ho & _).
  split; [apply H, Ho | rewrite He; constructor].
Qed.


(** One rendering on a cleared surface: the picture is [ops_of_list]
    for the font found in the context. *)
Lemma render_cleared_spec D s :
  let s' := final (render_cleared measureText engine_toString string_to_number (detections D) s) in
  canvas (page s') = ops_of_list measureText engine_toString (font (ctx (page s))) D
  /\ font (ctx (page s')) = match D with [] => font (ctx (page s)) | _ => "18px Arial" end.
Proof.
  cbv zeta. unfold render_cleared.
  rewrite (bind_normal ctx_clearRect _ s tt eq_refl). cbn [final].
  pose proof (drawPredictions_spec D (final (ctx_clearRect s))) as H. cbv zeta in H.
  destruct H as (_ & _ & _ & _ & Hf & Hk). rewrite Hk, Hf. split; reflexivity.
Qed.

(** Rendering twice on a cleared surface gives the same picture when
    the context already has the label font. *)
Lemma render_cleared_twice_label_font D s :
  font (ctx (page s)) = "18px Arial" ->
  let s1 := final (render_cleared measureText engine_toString string_to_number (detections D) s) in
  let s2 := final (render_cleared measureText engine_toString string_to_number (detections D) s1) in
  canvas (page s1) = canvas (page s2).
Proof.
  intros Hf. cbv zeta.
  destruct (render_cleared_spec D s) as [Hk1 Hf1].
  destruct (render_cleared_spec D (final (render_cleared measureText engine_toString string_to_number (detections D) s)))
    as [Hk2 _].
  rewrite Hk2, Hk1, Hf1, Hf. destruct D; reflexivity.
Qed.

(** C5 on the script: on the page as loaded, whose context has the
    default font, the list with the one sample detection is rendered
    twice with the surface cleared before each rendering. The label
    background of the first rendering is as wide as the text measured in
    the default font, that of the second as wide as the text measured in
    the label font, which the first rendering left in the context: the
    two pictures differ whenever the two widths do. *)
Theorem render_twice_fresh_context :
  (measureText "10px sans-serif" "Original: 97%" + 10)%float
  <> (measureText "18px Arial" "Original: 97%" + 10)%float ->
  let s1 := final (render_cleared measureText engine_toString string_to_number
                     (detections [sample_detection])
                     page_loaded) in
  let s2 := final (render_cleared measureText engine_toString string_to_number
                     (detections [sample_detection]) s1) in
  canvas (page s1)
  = [StrokeRect 10 20 30 40 authentic_color 3;
     FillRect 10 20 (measureText "10px sans-serif" "Original: 97%" + 10)%float 24
              authentic_color;
     FillText "Original: 97%" 15 18 (css_color "#FFFFFF") "18px Arial"]
  /\ canvas (page s2)
     = [StrokeRect 10 20 30 40 authentic_color 3;
        FillRect 10 20 (measureText "18px Arial" "Original: 97%" + 10)%float 24
                 authentic_color;
        FillText "Original: 97%" 15 18 (css_color "#FFFFFF") "18px Arial"]
  /\ canvas (page s1) <> canvas (page s2).
Proof.
  intros Hw. cbv zeta.
  destruct (render_cleared_spec [sample_detection] page_loaded) as [Hk1 Hf1].
  destruct (render_cleared_spec [sample_detection]
              (final (render_cleared measureText engine_toString string_to_number
                     (detections [sample_detection])
                        page_loaded))) as [Hk2 _].
  rewrite Hk2, Hk1, Hf1.
  split; [reflexivity|]. split; [reflexivity|].
  intros H. apply Hw. cbn in H. injection H as H'. exact H'.
Qed.
End Renderer.

(** C5 with text metrics that grow with the font size: the label
    background is 75 units wide in the first picture and 127 units wide in
    the second. *)
Lemma render_twice_fresh_context_witness :
  (sample_measureText "10px sans-serif" "Original: 97%" + 10)%float = 75%float
  /\ (sample_measureText "18px Arial" "Original: 97%" + 10)%float = 127%float
  /\ canvas (page (final (render_cleared sample_measureText sample_toString sample_string_to_number
                            (detections [sample_detection]) page_loaded)))
     <> canvas (page (final (render_cleared sample_measureText sample_toString sample_string_to_number
                               (detections [sample_detection])
                               (final (render_cleared sample_measureText sample_toString sample_string_to_number
                                         (detections [sample_detection]) page_loaded))))).
Proof.
  split; [reflexivity|]. split; [reflexivity|].
  refine (proj2 (proj2 (render_twice_fresh_context sample_measureText sample_toString sample_string_to_number _))).
  vm_compute. discriminate.
Defined.

(** ** A small program logic for [Js] *)

Section Respects.
Context (R : relation State) (P : Effect -> Prop) `{!PreOrder R}.

Lemma respects_ret {A} (a : A) : respects R P (ret a).
Proof. intros s. split; [reflexivity | constructor]. Qed.

Lemma respects_throw {A} (e : Exn) : respects R P (@throw A e).
Proof. intros s. split; [reflexivity | constructor]. Qed.

Lemma respects_read {A} (f : State -> A) : respects R P (read f).
Proof. intros s. split; [reflexivity | constructor]. Qed.

Lemma respects_update (f : State -> State) :
  (forall s, R s (f s)) -> respects R P (update f).
Proof. intros H s. split; [apply H | constructor]. Qed.

Lemma respects_emit (e : Effect) : P e -> respects R P (emit e).
Proof. intros H s. split; [reflexivity | repeat constructor; exact H]. Qed.

Lemma respects_bind {A B} (c : Js A) (k : A -> Js B) :
  respects R P c -> (forall a, respects R P (k a)) -> respects R P (bind c k).
Proof.
  intros Hc Hk s. destruct (Hc s) as [Hr He]. unfold bind.
  destruct (c s) as [[a|e] s1 t1]; cbn [final emitted] in *.
  - destruct (Hk a s1) as [Hr' He']. destruct (k a s1) as [r s2 t2]. cbn [final emitted] in *.
    split; [etransitivity; eassumption | apply Forall_app; split; assumption].
  - split; assumption.
Qed.

Lemma respects_try_catch {A} (c : Js A) (h : Exn -> Js A) :
  respects R P c -> (forall e, respects R P (h e)) -> respects R P (try_catch c h).
Proof.
  intros Hc Hh s. destruct (Hc s) as [Hr He]. unfold try_catch.
  destruct (c s) as [[a|e] s1 t1]; cbn [final emitted] in *.
  - split; assumption.
  - destruct (Hh e s1) as [Hr' He']. destruct (h e s1) as [r s2 t2]. cbn [final emitted] in *.
    split; [etransitivity; eassumption | apply Forall_app; split; assumption].
Qed.

Lemma respects_await {A} (p : Settled A) : respects R P (await p).
Proof. destruct p; [apply respects_ret | apply respects_throw]. Qed.

Lemma respects_forEach {A} (l : list A) (f : A -> Js unit) :
  (forall a, respects R P (f a)) -> respects R P (forEach l f).
Proof.
  intros Hf. induction l as [|a l IH]; cbn [forEach].
  - apply respects_ret.
  - apply respects_bind; [apply Hf | intros _; exact IH].
Qed.

Lemma respects_callbacks (n : nat) (f : Js unit) :
  respects R P f -> respects R P (callbacks n f).
Proof.
  intros Hf. induction n as [|n IH]; cbn [callbacks].
  - apply respects_ret.
  - apply respects_bind; [|intros _; exact IH].
    apply respects_try_catch; [exact Hf | intros _; apply respects_ret].
Qed.
End Respects.

#[global] Instance any_state_preorder : PreOrder any_state.
Proof. split; [intros s | intros s1 s2 s3 _ _]; exact I. Qed.

#[global] Instance same_slot_preorder : PreOrder same_slot.
Proof. split; [intros s | intros s1 s2 s3]; unfold same_slot; congruence. Qed.

#[global] Instance queue_grows_preorder : PreOrder queue_grows.
Proof. split; [intros s | intros s1 s2 s3]; unfold queue_grows; lia. Qed.

(** One step of a proof in the logic: the rule for the head of the
    computation, with a case split where the script branches. *)
Ltac respects_rule lem :=
  apply lem; try apply _;
  try match goal with |- forall _, _ => intros ? end.

Ltac respects_step :=
  match goal with
  | |- respects _ _ (bind _ _) => respects_rule @respects_bind
  | |- respects _ _ (try_catch _ _) => respects_rule @respects_try_catch
  | |- respects _ _ (ret _) => respects_rule @respects_ret
  | |- respects _ _ (throw _) => respects_rule @respects_throw
  | |- respects _ _ (read _) => respects_rule @respects_read
  | |- respects _ _ (await _) => respects_rule @respects_await
  | |- respects _ _ (forEach _ _) => respects_rule @respects_forEach
  | |- respects _ _ (callbacks _ _) => respects_rule @respects_callbacks
  | |- respects _ _ (update _) => respects_rule @respects_update
  | |- respects _ _ (emit _) => respects_rule @respects_emit
  | |- respects _ _ (if ?b then _ else _) => destruct b
  | |- respects _ _ (match ?x with _ => _ end) => destruct x
  end.

(** ** The slot discipline *)

Section SlotDiscipline.
Variable measureText : string -> string -> float.
Variable engine_toString : float -> string.
Variable string_to_number : string -> float.

Lemma stopDetection_slot : respects any_state slot_access stopDetection.
Proof.
  unfold stopDetection, write_latestPredictions, clearInterval, getTracks, track_stop,
    ctx_clearRect.
  repeat respects_step; unfold any_state; cbn; auto.
Qed.

Lemma startDetection_slot : respects any_state slot_access startDetection.
Proof.
  unfold startDetection, getUserMedia.
  repeat respects_step; unfold any_state; cbn; auto.
Qed.

Lemma startDetection_resumed_slot p : respects any_state slot_access (startDetection_resumed p).
Proof.
  unfold startDetection_resumed, video_addEventListener, console_error.
  repeat respects_step; unfold any_state; cbn; auto. apply stopDetection_slot.
Qed.

Lemma onLoadedMetadata_slot : respects any_state slot_access onLoadedMetadata.
Proof.
  unfold onLoadedMetadata, video_play, requestAnimationFrame, setInterval.
  repeat respects_step; unfold any_state; cbn; auto.
Qed.

Lemma predictionLoop_slot img : respects any_state slot_access (predictionLoop img).
Proof.
  unfold predictionLoop, fetch.
  repeat respects_step; unfold any_state; cbn; auto.
Qed.

Lemma predictionLoop_response_slot req p :
  respects any_state slot_access (predictionLoop_response req p).
Proof.
  unfold predictionLoop_response, predictionLoop_catch, console_error,
    write_latestPredictions.
  repeat respects_step; unfold any_state; cbn; auto.
Qed.

Lemma predictionLoop_json_slot p : respects any_state slot_access (predictionLoop_json p).
Proof.
  unfold predictionLoop_json, predictionLoop_catch, console_error, write_latestPredictions.
  repeat respects_step; unfold any_state; cbn; auto.
Qed.

Lemma drawPredictions_slot v :
  respects any_state slot_access (drawPredictions measureText engine_toString string_to_number v).
Proof.
  unfold drawPredictions, drawPrediction, array_items, get_property, destructure4,
    assign_strokeStyle, assign_lineWidth,
    assign_fillStyle, assign_font, ctx_assign, ctx_strokeRect, ctx_fillRect, ctx_fillText,
    ctx_measureText_width, paint.
  repeat respects_step; unfold any_state; cbn; auto.
Qed.

Lemma renderLoop_slot : respects any_state slot_access (renderLoop measureText engine_toString string_to_number).
Proof.
  unfold renderLoop, read_latestPredictions, requestAnimationFrame, ctx_drawImage, paint.
  repeat respects_step; unfold any_state; cbn; auto. apply drawPredictions_slot.
Qed.

Lemma handle_slot ev : respects any_state slot_access (handle measureText engine_toString string_to_number ev).
Proof.
  destruct ev; unfold handle; repeat respects_step; unfold any_state; cbn; auto;
    auto using stopDetection_slot, startDetection_slot, startDetection_resumed_slot,
      onLoadedMetadata_slot, renderLoop_slot, predictionLoop_slot,
      predictionLoop_response_slot, predictionLoop_json_slot.
Qed.

Lemma trace_slot evs : forall s,
  Forall slot_access (trace measureText engine_toString string_to_number evs s).
Proof.
  induction evs as [|ev evs IH]; intros s; cbn [trace].
  - constructor.
  - apply Forall_app. split; [apply handle_slot | apply IH].
Qed.

Lemma drawPredictions_same_slot v :
  respects same_slot any_effect (drawPredictions measureText engine_toString string_to_number v).
Proof.
  intros s. split; [|apply Forall_forall; intros; exact I].
  destruct (drawPredictions_any measureText engine_toString string_to_number v s)
    as (_ & (Hv & _) & _).
  unfold same_slot. rewrite Hv. reflexivity.
Qed.

Lemma quiet_events_same_slot ev :
  may_write_slot ev = false ->
  respects same_slot any_effect (handle measureText engine_toString string_to_number ev).
Proof.
  destruct ev as [| |p| | |id img|req p|req p]; cbn [may_write_slot]; try discriminate;
    [|destruct p as [st|]; try discriminate| | |]; intros _.
  2: { (* the camera is granted: the [catch] block does not run *)
    intros s. split; [|apply Forall_forall; intros; exact I].
    unfold same_slot, handle, bind, read, ret. cbn.
    destruct (gum_pending (browser s)); reflexivity. }
  all: unfold handle, startDetection, onLoadedMetadata, renderLoop, predictionLoop;
       unfold getUserMedia, video_play, requestAnimationFrame, setInterval,
         read_latestPredictions, ctx_drawImage, paint, fetch;
       repeat (respects_step || apply drawPredictions_same_slot);
       unfold same_slot, any_effect; cbn; auto.
Qed.

(** C7, as the script has it. In every execution from the loaded page
    each write of the shared detection slot is made by the Prediction
    Loop, or by the Session Controller's stop() and then with the empty
    list, and each read is made by the Render Loop; and the slot keeps
    its value across every event other than a settled prediction
    request and those that run stop(). *)
Theorem slot_written_by_prediction_and_stop
    (start_disabled stop_disabled : bool) (status : StatusContent) (evs : list Event) :
  Forall slot_access
    (trace measureText engine_toString string_to_number evs (loaded start_disabled stop_disabled status))
  /\ (forall (ev : Event) (s : State),
        latestPredictions (vars (step measureText engine_toString string_to_number ev s))
        = latestPredictions (vars s)
        \/ may_write_slot ev = true).
Proof.
  split; [apply trace_slot|]. intros ev s.
  destruct (may_write_slot ev) eqn:E; [right; reflexivity | left].
  apply (quiet_events_same_slot ev E s).
Qed.
End SlotDiscipline.

(** C7, as stated, fails: in the session [start; camera granted; stop]
    the slot is written by the Session Controller. *)
Lemma slot_written_by_stop :
  ~ Forall slot_access_claimed
      (trace sample_measureText sample_toString sample_string_to_number
         [ClickStart; GetUserMediaSettled (Fulfilled camera); ClickStop] page_loaded).
Proof.
  intros H. rewrite Forall_forall in H.
  specialize (H (SlotWrite SessionController (JArray []))).
  assert (Hin : SlotWrite SessionController (JArray [])
                ∈ trace sample_measureText sample_toString sample_string_to_number
                    [ClickStart; GetUserMediaSettled (Fulfilled camera); ClickStop]
                    page_loaded).
  { vm_compute. repeat constructor. }
  specialize (H Hin). discriminate H.
Qed.

(** ** The render loop *)

Section RenderLoopProofs.
Variable measureText : string -> string -> float.
Variable engine_toString : float -> string.
Variable string_to_number : string -> float.

Lemma renderLoop_inactive s :
  isDetecting (vars s) = false -> renderLoop measureText engine_toString string_to_number s = ret tt s.
Proof.
  intros H. unfold renderLoop. erewrite bind_normal by reflexivity.
  cbn [read ret completion final emitted]. rewrite H. reflexivity.
Qed.

(** One activation with the flag set: it draws the frame, then the
    slot; it queues itself again when the slot is drawn to the end, and
    ends with the TypeError of [drawPredictions] otherwise. *)
Lemma renderLoop_active s :
  isDetecting (vars s) = true ->
  let o := renderLoop measureText engine_toString string_to_number s in
  vars (final o) = vars s
  /\ (if drawable (latestPredictions (vars s))
      then completion o = Normal tt
           /\ raf_pending (browser (final o)) = S (raf_pending (browser s))
           /\ emitted o = [SlotRead RenderLoop; CallRequestAnimationFrame]
      else throws_TypeError o
           /\ raf_pending (browser (final o)) = raf_pending (browser s)
           /\ emitted o = [SlotRead RenderLoop]).
Proof.
  intros H.
  pose proof (drawPredictions_any measureText engine_toString string_to_number
                (latestPredictions (vars s))
                (set_canvas (canvas (page s) ++ [DrawImage]) s)) as D.
  cbv zeta in D. destruct D as (De & (Dv & Db & _) & Dc).
  unfold renderLoop, bind, read, ret, read_latestPredictions, ctx_drawImage, paint,
    requestAnimationFrame, update, emit, throws_TypeError in *.
  cbn -[drawPredictions drawable] in *. rewrite H. cbn -[drawPredictions drawable].
  destruct (drawPredictions _ _ _ _ _) as [r s2 t2]. cbn [completion final emitted] in *.
  subst t2. destruct (drawable (latestPredictions (vars s))).
  - subst r. cbn. rewrite Dv, Db. cbn. auto.
  - destruct Dc as [[msg Dc] _]. subst r. cbn. rewrite Dv, Db. cbn. eauto.
Qed.

(** One activation, whatever the flag and the slot. *)
Lemma renderLoop_spec s :
  let o := renderLoop measureText engine_toString string_to_number s in
  vars (final o) = vars s
  /\ raf_pending (browser (final o))
     = (if isDetecting (vars s) && drawable (latestPredictions (vars s))
        then S (raf_pending (browser s)) else raf_pending (browser s)).
Proof.
  cbv zeta. destruct (isDetecting (vars s)) eqn:E; cbn [andb].
  - destruct (renderLoop_active s E) as (Hv & H). split; [exact Hv|].
    destruct (drawable (latestPredictions (vars s))); tauto.
  - rewrite (renderLoop_inactive s E). split; reflexivity.
Qed.

(** The [n] activations of one frame, run one after the other. *)
Lemma callbacks_renderLoop n : forall s,
  let o := callbacks n (renderLoop measureText engine_toString string_to_number) s in
  vars (final o) = vars s
  /\ raf_pending (browser (final o))
     = (if isDetecting (vars s) && drawable (latestPredictions (vars s))
        then n + raf_pending (browser s) else raf_pending (browser s))%nat.
Proof.
  induction n as [|n IH]; intros s; cbv zeta.
  - cbn. destruct (_ && _); auto.
  - destruct (renderLoop_spec s) as (Hv & Hr).
    cbn [callbacks]. unfold bind, try_catch, ret.
    destruct (renderLoop _ _ _ s) as [[[]|e] s1 t1]; cbn [completion final emitted] in *;
      destruct (IH s1) as [Iv Ir];
      destruct (callbacks n _ s1) as [r2 s2 t2]; cbn [completion final emitted] in *;
      rewrite Iv, Ir, Hv, Hr; (split; [reflexivity|]);
      destruct (_ && _); lia.
Qed.

(** A display refresh runs the queued activations: each one queues
    itself again when the flag is set and the slot is drawn to the end;
    none does otherwise. *)
Lemma animation_frame s :
  let s' := step measureText engine_toString string_to_number AnimationFrame s in
  vars s' = vars s
  /\ raf_pending (browser s')
     = (if isDetecting (vars s) && drawable (latestPredictions (vars s))
        then raf_pending (browser s) else 0%nat).
Proof.
  cbv zeta. unfold step, handle.
  erewrite bind_normal by reflexivity. cbn [final read ret].
  erewrite bind_normal by reflexivity. cbn [final update].
  destruct (callbacks_renderLoop (raf_pending (browser s)) (set_raf_pending 0 s)) as [Hv Hr].
  rewrite Hv, Hr. cbn. split; [reflexivity|].
  destruct (_ && _); lia.
Qed.





End RenderLoopProofs.



(** ** The prediction loop *)

Section PredictionLoopProofs.
Variable measureText : string -> string -> float.
Variable engine_toString : float -> string.
Variable string_to_number : string -> float.

(** C2. When the response of an outstanding prediction request has a
    non-success status, or the request fails in transport, the cycle
    ends normally with the shared detection slot empty, whatever it
    held; it logs the error and issues no new request; the request is no
    longer outstanding; and the timer stays live, so that the next timer
    activation of an active session sends the next frame. *)
Theorem failed_prediction_clears_slot (s : State) (req : nat) (p : Settled Response) :
  requests (browser s) !! req = Some AwaitingResponse ->
  failed p = true ->
  let o := handle measureText engine_toString string_to_number (FetchSettled req p) s in
  completion o = Normal tt
  /\ latestPredictions (vars (final o)) = JArray []
  /\ emitted o = [ConsoleError "Error during prediction:" (failure_of p);
                  SlotWrite PredictionLoop (JArray [])]
  /\ requests (browser (final o)) = delete req (requests (browser s))
  /\ intervals (browser (final o)) = intervals (browser s)
  /\ isDetecting (vars (final o)) = isDetecting (vars s)
  /\ (forall (id : nat) (img : string),
        id ∈ intervals (browser s) ->
        isDetecting (vars s) = true ->
        emitted (handle measureText engine_toString string_to_number (IntervalFired id img) (final o))
        = [CallFetch (next_request (browser s)) img]).
Proof.
  intros Hreq Hfail. cbv zeta.
  unfold handle, predictionLoop_response, predictionLoop_catch, predictionLoop, fetch,
    console_error, write_latestPredictions, try_catch, bind, read, update, emit, ret.
  cbn. rewrite Hreq. cbn.
  destruct p as [r|e]; cbn in Hfail |- *; [rewrite Hfail; cbn|];
    (repeat split; try reflexivity;
     intros id img Hid Ha; rewrite (bool_decide_eq_true_2 _ Hid); cbn;
     rewrite Ha; reflexivity).
Qed.

(** C10. When the body of a success-status response fails to parse, the
    rejection of [response.json()] is caught by the same [catch] as a
    failed request: the cycle ends normally, the shared detection slot
    is empty, the error is logged, the timer stays live, and the state
    reached is the one a transport failure of the same request reaches. *)
Theorem unparsable_body_clears_slot (s : State) (req : nat) (e e' : Exn) :
  requests (browser s) !! req = Some AwaitingBody ->
  let o := handle measureText engine_toString string_to_number (JsonSettled req (Rejected e)) s in
  let o' := handle measureText engine_toString string_to_number (FetchSettled req (Rejected e'))
              (set_requests (<[req := AwaitingResponse]> (requests (browser s))) s) in
  completion o = Normal tt
  /\ latestPredictions (vars (final o)) = JArray []
  /\ emitted o = [ConsoleError "Error during prediction:" e; SlotWrite PredictionLoop (JArray [])]
  /\ intervals (browser (final o)) = intervals (browser s)
  /\ isDetecting (vars (final o)) = isDetecting (vars s)
  /\ completion o' = completion o
  /\ final o' = final o
  /\ emitted o' = [ConsoleError "Error during prediction:" e'; SlotWrite PredictionLoop (JArray [])].
Proof.
  intros Hreq. cbv zeta.
  unfold handle, predictionLoop_json, predictionLoop_response, predictionLoop_catch,
    console_error, write_latestPredictions, try_catch, bind, read, update, emit, ret.
  cbn. rewrite Hreq, lookup_insert_eq. cbn. rewrite delete_insert_eq.
  repeat split; reflexivity.
Qed.
End PredictionLoopProofs.

(** C2 at a simulated HTTP 500 that arrives while the slot holds a
    detection. *)
Lemma failed_prediction_clears_slot_witness :
  requests (browser detecting_with_request) !! 1%nat = Some AwaitingResponse
  /\ failed (Fulfilled {| status := 500 |}) = true
  /\ latestPredictions (vars detecting_with_request) = detections [sample_detection]
  /\ latestPredictions
       (vars (sample_step (FetchSettled 1 (Fulfilled {| status := 500 |}))
                detecting_with_request)) = JArray [].
Proof.
  assert (H1 : requests (browser detecting_with_request) !! 1%nat = Some AwaitingResponse)
    by (vm_compute; reflexivity).
  assert (H2 : failed (Fulfilled {| status := 500 |}) = true) by reflexivity.
  split; [exact H1|]. split; [exact H2|]. split; [vm_compute; reflexivity|].
  exact (proj1 (proj2 (failed_prediction_clears_slot sample_measureText sample_toString sample_string_to_number
                         _ _ _ H1 H2))).
Defined.

(** C10 at a started session whose first response has an unparsable body
    while the slot is empty. *)
Lemma unparsable_body_clears_slot_witness :
  requests
    (browser (sample_run [IntervalFired 1 sample_image;
                          FetchSettled 0 (Fulfilled {| status := 200 |})]
                         session_started)) !! 0%nat = Some AwaitingBody
  /\ completion
       (handle sample_measureText sample_toString sample_string_to_number (JsonSettled 0 (Rejected SyntaxError))
          (sample_run [IntervalFired 1 sample_image;
                       FetchSettled 0 (Fulfilled {| status := 200 |})]
                      session_started)) = Normal tt.
Proof.
  assert (H : requests
                (browser (sample_run [IntervalFired 1 sample_image;
                                      FetchSettled 0 (Fulfilled {| status := 200 |})]
                                     session_started)) !! 0%nat = Some AwaitingBody)
    by (vm_compute; reflexivity).
  split; [exact H|].
  exact (proj1 (unparsable_body_clears_slot sample_measureText sample_toString sample_string_to_number
                  _ _ SyntaxError NetworkError H)).
Defined.

(** C1 on the script: a session is stopped while its prediction request
    is outstanding, which leaves the slot empty; the response then arrives
    with a success status and a detection, and the slot holds the
    detection although the session is stopped (a response with status 500
    leaves it empty). The next session then paints the box of that
    detection on its first frame. *)
Theorem late_response_fills_slot :
  requests (browser stopped_with_request) !! 0%nat = Some AwaitingResponse
  /\ isDetecting (vars stopped_with_request) = false
  /\ latestPredictions (vars stopped_with_request) = JArray []
  /\ isDetecting
       (vars (sample_run [FetchSettled 0 (Fulfilled {| status := 200 |});
                          JsonSettled 0 (Fulfilled (detections [sample_detection]))]
                         stopped_with_request)) = false
  /\ latestPredictions
       (vars (sample_run [FetchSettled 0 (Fulfilled {| status := 200 |});
                          JsonSettled 0 (Fulfilled (detections [sample_detection]))]
                         stopped_with_request)) = detections [sample_detection]
  /\ latestPredictions
       (vars (sample_run [FetchSettled 0 (Fulfilled {| status := 500 |})]
                         stopped_with_request)) = JArray []
  /\ StrokeRect 10 20 30 40 authentic_color 3
     ∈ canvas
         (page (sample_run [FetchSettled 0 (Fulfilled {| status := 200 |});
                            JsonSettled 0 (Fulfilled (detections [sample_detection]));
                            AnimationFrame;
                            ClickStart; GetUserMediaSettled (Fulfilled second_camera);
                            LoadedMetadata; AnimationFrame]
                           stopped_with_request)).
Proof. vm_compute. repeat split; try reflexivity. repeat constructor. Qed.

(** ** The session controller *)

Lemma forEach_track_stop ts : forall s,
  forEach ts track_stop s
  = {| completion := Normal tt;
       final := set_ended_tracks (list_to_set ts ∪ ended_tracks (browser s)) s;
       emitted := map CallTrackStop ts |}.
Proof.
  induction ts as [|t ts IH]; intros [v p [iv ni rp gp rq nr et]].
  - cbn [forEach list_to_set map]. unfold ret, set_ended_tracks, upd_browser.
    cbn [browser ended_tracks]. rewrite (left_id_L ∅ (∪)). reflexivity.
  - cbn [forEach]. erewrite bind_normal by reflexivity. rewrite IH.
    unfold track_stop, bind, emit, update, set_ended_tracks, upd_browser.
    cbn [completion final emitted browser ended_tracks list_to_set map app].
    rewrite (assoc_L (∪)), (comm_L (∪) (list_to_set ts) {[t]}). reflexivity.
Qed.

(** [stopDetection] never throws; it leaves the state [stopped], and it
    calls [clearInterval] on the id it holds and [track.stop()] on every
    track of the stream it holds. *)
Lemma stopDetection_spec (s : State) :
  stopDetection s
  = {| completion := Normal tt;
       final := stopped s;
       emitted := CallClearInterval (predictionIntervalId (vars s))
                  :: map CallTrackStop (held_tracks s)
                  ++ [SlotWrite SessionController (JArray [])] |}.
Proof.
  destruct s as [[st d lp id] [sb tb tx so vl cx cv] [iv ni rp gp rq nr et]].
  unfold stopDetection, clearInterval, getTracks, write_latestPredictions, ctx_clearRect,
    stopped, held_tracks.
  unfold bind, read, update, emit, ret.
  destruct id as [i|], st as [str|];
    cbn -[forEach union difference list_to_set];
    rewrite ?forEach_track_stop; cbn -[union difference list_to_set];
    rewrite ?app_nil_r; try reflexivity;
    cbn [list_to_set]; rewrite (left_id_L ∅ (∪)); reflexivity.
Qed.

Lemma stopped_idempotent (s : State) : stopped (stopped s) = stopped s.
Proof.
  destruct s as [[st d lp id] [sb tb tx so vl cx cv] [iv ni rp gp rq nr et]].
  unfold stopped, held_tracks.
  cbn [vars page browser stream predictionIntervalId video_listeners ctx intervals
       next_interval raf_pending gum_pending requests next_request ended_tracks].
  f_equal. f_equal.
  - destruct id as [i|]; [|reflexivity].
    apply set_eq. intros x. rewrite !elem_of_difference. tauto.
  - apply set_eq. intros x. rewrite !elem_of_union. tauto.
Qed.

(** C8, as the script has it. stop() never throws, and stop() followed by
    stop() leaves the state a single stop() leaves, so that on a stopped
    page it changes nothing, and on the page as loaded it changes only the
    two buttons and the status text. It calls clearInterval on the timer
    id it holds and track.stop() on each track of the stream it holds: on
    no track when no stream was ever acquired, and again on the tracks of
    the stream of a finished session, since the handle is kept. *)
Theorem stopDetection_idempotent (s : State) :
  completion (stopDetection s) = Normal tt
  /\ final (stopDetection (final (stopDetection s))) = final (stopDetection s)
  /\ emitted (stopDetection s)
     = CallClearInterval (predictionIntervalId (vars s))
       :: map CallTrackStop (match stream (vars s) with Some st => tracks st | None => [] end)
       ++ [SlotWrite SessionController (JArray [])]
  /\ (forall (start_disabled stop_disabled : bool) (status : StatusContent),
        final (stopDetection (loaded start_disabled stop_disabled status))
        = loaded false true idle_prompt).
Proof.
  rewrite !stopDetection_spec. cbn [completion final emitted].
  split; [reflexivity|]. split; [apply stopped_idempotent|]. split; [reflexivity|].
  intros a b st. rewrite stopDetection_spec. cbn [final].
  unfold stopped, loaded, held_tracks.
  cbn [vars page browser stream predictionIntervalId video_listeners ctx intervals
       next_interval raf_pending gum_pending requests next_request ended_tracks list_to_set].
  rewrite (left_id_L ∅ (∪)). reflexivity.
Qed.

(** C8, as stated, fails. On a session that was started and stopped no
    session is active and the camera track has ended; stop() called there
    stops the track again. The page reaches such a call by itself: when a
    second start fails to acquire the camera, the stop() of the failure
    handler stops the track of the first session a second time. *)
Lemma stop_repeats_cleanup :
  isDetecting (vars session_stopped) = false
  /\ ~ no_duplicate_cleanup session_stopped
  /\ track_stops
       (sample_trace [ClickStart; GetUserMediaSettled (Fulfilled camera); LoadedMetadata;
                      ClickStop;
                      ClickStart; GetUserMediaSettled (Rejected NotFoundError)]
                     page_loaded)
     = [7%nat; 7%nat].
Proof.
  split; [vm_compute; reflexivity|]. split; [|vm_compute; reflexivity].
  intros H. apply (H 7%nat).
  - replace (track_stops _) with [7%nat] by (vm_compute; reflexivity). left.
  - replace (ended_tracks _) with ({[7%nat]} : gset nat) by (vm_compute; reflexivity).
    apply elem_of_singleton. reflexivity.
Qed.

Lemma failed_start_rolls_back (s : State) (e : Exn) :
  completion (startDetection_resumed (Rejected e) s) = Normal tt
  /\ final (startDetection_resumed (Rejected e) s) = stopped s.
Proof.
  unfold startDetection_resumed, try_catch, await, throw, console_error.
  unfold bind, emit, update. rewrite stopDetection_spec. split; reflexivity.
Qed.

(** C3 on the script: when the camera request is rejected the [catch]
    block ends normally with the session state rolled back (flag cleared,
    video detached, slot and surface empty, timer of the held id not live),
    but the status element holds the idle prompt, not the error message:
    stop() has overwritten it. So it is after a start on the loaded page
    that is denied the camera. *)
Theorem failed_start_shows_idle_prompt (s : State) (e : Exn) :
  let o := startDetection_resumed (Rejected e) s in
  completion o = Normal tt
  /\ statusText (page (final o)) = idle_prompt
  /\ idle_prompt <> webcam_error
  /\ final o = stopped s
  /\ statusText
       (page (sample_run [ClickStart; GetUserMediaSettled (Rejected NotAllowedError)]
                         page_loaded)) = idle_prompt.
Proof.
  cbv zeta. destruct (failed_start_rolls_back s e) as [Hc Hf]. rewrite Hc, Hf.
  repeat split; try reflexivity. discriminate.
Qed.

(** C6, as the script has it. start() sets the active flag as soon as it
    is called, before the camera is requested, and leaves the stream
    variable as it was; when the request is granted the stream is stored
    and the flag is left as it is; when it is rejected the failure
    handler ends with the flag cleared. *)
Theorem startDetection_sets_flag_first (s : State) :
  isDetecting (vars (final (startDetection s))) = true
  /\ stream (vars (final (startDetection s))) = stream (vars s)
  /\ gum_pending (browser (final (startDetection s))) = S (gum_pending (browser s))
  /\ emitted (startDetection s) = [CallGetUserMedia]
  /\ (forall st : MediaStream,
        stream (vars (final (startDetection_resumed (Fulfilled st) s))) = Some st
        /\ isDetecting (vars (final (startDetection_resumed (Fulfilled st) s)))
           = isDetecting (vars s))
  /\ (forall e : Exn,
        isDetecting (vars (final (startDetection_resumed (Rejected e) s))) = false).
Proof.
  repeat split; try reflexivity.
  intros e. destruct (failed_start_rolls_back s e) as [_ H]. rewrite H. reflexivity.
Qed.

(** C6, as stated, fails: on the loaded page a click on start sets the
    active flag while no stream is held, and the camera request is then
    rejected. *)
Lemma active_before_camera_granted :
  ~ active_only_with_stream sample_run
      [ClickStart; GetUserMediaSettled (Rejected NotAllowedError)] page_loaded.
Proof. intros H. apply (H 1%nat); vm_compute; reflexivity. Qed.

(** * Further properties *)

(** ** The overlay renderer *)

Section RendererMore.
Variable measureText : string -> string -> float.
Variable engine_toString : float -> string.
Variable string_to_number : string -> float.

Lemma drawPrediction_final pred s :
  drawPrediction measureText engine_toString string_to_number (json_of_detection pred) s
  = {| completion := Normal tt;
       final := set_canvas (canvas (page s)
                            ++ ops_of_detection measureText engine_toString
                                 (font (ctx (page s))) pred)
                  (set_ctx (context_after (ctx (page s)) [pred]) s);
       emitted := [] |}.
Proof.
  destruct pred as [[[[x y] w] h] l c]. destruct s as [v [sb tb tx so vl cx cv] b].
  cbn -[label_text css_color box_color]. rewrite <- !app_assoc. reflexivity.
Qed.

Lemma context_after_cons c pred D :
  context_after (context_after c [pred]) D = context_after c (pred :: D).
Proof.
  unfold context_after. destruct D as [|pred' D]; [reflexivity|].
  change (last (pred :: pred' :: D)) with (last (pred' :: D)).
  destruct (last (pred' :: D)) eqn:E; [reflexivity|].
  apply last_None in E. discriminate.
Qed.

Lemma forEach_drawPrediction_final D : forall s,
  forEach (map json_of_detection D)
    (drawPrediction measureText engine_toString string_to_number) s
  = {| completion := Normal tt;
       final := set_canvas (canvas (page s)
                            ++ ops_of_list measureText engine_toString
                                 (font (ctx (page s))) D)
                  (set_ctx (context_after (ctx (page s)) D) s);
       emitted := [] |}.
Proof.
  induction D as [|pred D IH]; intros s.
  - destruct s as [v [sb tb tx so vl cx cv] b]. cbn. rewrite app_nil_r. reflexivity.
  - cbn [forEach map]. unfold bind. rewrite drawPrediction_final, IH.
    destruct s as [v [sb tb tx so vl cx cv] b].
    cbn [set_canvas set_ctx upd_page page canvas ctx vars browser app
         startButton_disabled stopButton_disabled statusText video_srcObject video_listeners].
    rewrite context_after_cons. cbn [ops_of_list]. rewrite <- app_assoc. reflexivity.
Qed.

Lemma strokes_of_list fnt D :
  filter (fun op => is_StrokeRect op = true) (ops_of_list measureText engine_toString fnt D)
  = map box_op D.
Proof.
  revert fnt. induction D as [|pred D IH]; intros fnt; [reflexivity|].
  cbn [ops_of_list map]. rewrite filter_app, IH. f_equal.
  destruct pred as [[[[x y] w] h] l c]. reflexivity.
Qed.


Lemma drawPredictions_final D s :
  drawPredictions measureText engine_toString string_to_number (detections D) s
  = {| completion := Normal tt;
       final :=
         (if isDetecting (vars s) then set_statusText (detection_status D) else fun s' => s')
           (set_canvas (canvas (page s)
                        ++ ops_of_list measureText engine_toString (font (ctx (page s))) D)
              (set_ctx (context_after (ctx (page s)) D) s));
       emitted := [] |}.
Proof.
  unfold drawPredictions, detections, array_items. rewrite bind_ret.
  unfold bind. rewrite forEach_drawPrediction_final.
  destruct s as [[st d lp id] [sb tb tx so vl cx cv] b]. cbn -[ops_of_list context_after].
  destruct d; [|reflexivity]. destruct D; reflexivity.
Qed.



(** What an element paints is decided by the element and by the font
    found: two states with the same font get the same operations and end
    with the same font. *)
Lemma drawPrediction_by_font pred s s' :
  font (ctx (page s)) = font (ctx (page s')) ->
  let o := drawPrediction measureText engine_toString string_to_number pred s in
  let o' := drawPrediction measureText engine_toString string_to_number pred s' in
  completion o = completion o'
  /\ font (ctx (page (final o))) = font (ctx (page (final o')))
  /\ exists new : list DrawOp,
       canvas (page (final o)) = canvas (page s) ++ new
       /\ canvas (page (final o')) = canvas (page s') ++ new.
Proof.
  intros Hf. cbv zeta.
  destruct s as [v [sb tb tx so vl [ss lw fs fn] cv] b].
  destruct s' as [v' [sb' tb' tx' so' vl' [ss' lw' fs' fn'] cv'] b'].
  cbn in Hf. subst fn'.
  destruct pred as [| | | | |m];
    try (cbn; repeat split; exists []; rewrite !app_nil_r; split; reflexivity).
  unfold drawPrediction, get_property, destructure4. rewrite !bind_ret.
  destruct (elements (member "box" m None)) as [l|].
  - cbn. repeat split. eexists. rewrite <- !app_assoc. split; reflexivity.
  - cbn. repeat split. exists []. rewrite !app_nil_r. split; reflexivity.
Qed.

Lemma forEach_drawPrediction_by_font items : forall s s',
  font (ctx (page s)) = font (ctx (page s')) ->
  let o := forEach items (drawPrediction measureText engine_toString string_to_number) s in
  let o' := forEach items (drawPrediction measureText engine_toString string_to_number) s' in
  completion o = completion o'
  /\ font (ctx (page (final o))) = font (ctx (page (final o')))
  /\ exists new : list DrawOp,
       canvas (page (final o)) = canvas (page s) ++ new
       /\ canvas (page (final o')) = canvas (page s') ++ new.
Proof.
  induction items as [|pred items IH]; intros s s' Hf; cbv zeta.
  - cbn. repeat split; [exact Hf|]. exists []. rewrite !app_nil_r. split; reflexivity.
  - destruct (drawPrediction_by_font pred s s' Hf) as (Hc & Hf1 & new1 & Hk & Hk').
    cbn [forEach]. unfold bind.
    destruct (drawPrediction _ _ _ pred s) as [r s1 t1].
    destruct (drawPrediction _ _ _ pred s') as [r' s1' t1'].
    cbn [completion final emitted] in *. subst r'. destruct r as [[]|e].
    + destruct (IH s1 s1' Hf1) as (Ic & If & new2 & Ik & Ik').
      destruct (forEach items _ s1) as [r2 s2 t2].
      destruct (forEach items _ s1') as [r2' s2' t2'].
      cbn [completion final emitted] in *.
      split; [exact Ic|]. split; [exact If|].
      exists (new1 ++ new2). rewrite Ik, Ik', Hk, Hk', <- !app_assoc. split; reflexivity.
    + cbn [completion final emitted]. split; [reflexivity|]. split; [exact Hf1|].
      exists new1. split; assumption.
Qed.

(** The font an element leaves: the label font when it is drawn, the one
    found when it is not. *)
Lemma drawPrediction_font pred s :
  font (ctx (page (final (drawPrediction measureText engine_toString string_to_number
                            pred s))))
  = if drawable_item pred then "18px Arial" else font (ctx (page s)).
Proof.
  destruct (drawPrediction_any measureText engine_toString string_to_number pred s)
    as (_ & _ & Hc).
  destruct pred as [| | | | |m]; cbn [drawable_item] in *; try (destruct Hc as [_ ->]; reflexivity).
  revert Hc. unfold drawPrediction, get_property, destructure4. rewrite !bind_ret.
  destruct (elements (member "box" m None)) as [l|]; [intros _|intros [_ ->]; reflexivity].
  destruct s as [v [sb tb tx so vl [ss lw fs fn] cv] b]. reflexivity.
Qed.

(** Once the label font is set, drawing more elements keeps it. *)
Lemma forEach_drawPrediction_label_font items : forall s,
  font (ctx (page s)) = "18px Arial" ->
  font (ctx (page (final (forEach items
                            (drawPrediction measureText engine_toString string_to_number)
                            s))))
  = "18px Arial".
Proof.
  induction items as [|pred items IH]; intros s Hf; [exact Hf|].
  pose proof (drawPrediction_font pred s) as H1.
  cbn [forEach]. unfold bind.
  destruct (drawPrediction _ _ _ pred s) as [[[]|e] s1 t1]; cbn [completion final emitted] in *.
  - assert (Hf1 : font (ctx (page s1)) = "18px Arial")
      by (rewrite H1; destruct (drawable_item pred); [reflexivity | exact Hf]).
    specialize (IH s1 Hf1). destruct (forEach items _ s1) as [r2 s2 t2]. exact IH.
  - rewrite H1. destruct (drawable_item pred); [reflexivity | exact Hf].
Qed.

(** One rendering on a cleared surface, for a parsed value of any shape:
    the picture is decided by the value and the font found, and the font
    left is the label font or the font found, by the value alone. *)
Lemma render_cleared_by_font predictions s s' :
  font (ctx (page s)) = font (ctx (page s')) ->
  canvas (page (final (render_cleared measureText engine_toString string_to_number
                         predictions s)))
  = canvas (page (final (render_cleared measureText engine_toString string_to_number
                           predictions s'))).
Proof.
  intros Hf. unfold render_cleared, ctx_clearRect. rewrite !bind_update.
  set (c := set_canvas [] s). set (c' := set_canvas [] s').
  assert (Hfc : font (ctx (page c)) = font (ctx (page c'))) by exact Hf.
  assert (Hkc : canvas (page c) = canvas (page c')) by reflexivity.
  clearbody c c'. clear Hf s s'.
  destruct predictions as [| | | |items|];
    try (cbn; exact Hkc).
  unfold drawPredictions, array_items. rewrite !bind_ret.
  destruct (forEach_drawPrediction_by_font items c c' Hfc) as (Hc & _ & new & Hk & Hk').
  unfold bind, read, ret.
  destruct (forEach items _ c) as [r s1 t1]. destruct (forEach items _ c') as [r' s1' t1'].
  cbn [completion final emitted] in *. subst r'.
  assert (Heq : canvas (page s1) = canvas (page s1')) by (rewrite Hk, Hk', Hkc; reflexivity).
  destruct r as [[]|e]; cbn [completion final emitted]; [|exact Heq].
  destruct (isDetecting (vars s1)), (isDetecting (vars s1')); cbn; exact Heq.
Qed.

Lemma render_cleared_font predictions :
  exists label_font : bool, forall s,
    font (ctx (page (final (render_cleared measureText engine_toString string_to_number
                              predictions s))))
    = if label_font then "18px Arial" else font (ctx (page s)).
Proof.
  destruct predictions as [| | | |items|]; try (exists false; intros ?; reflexivity).
  destruct items as [|pred items].
  - exists false. intros [v [sb tb tx so vl cx cv] b].
    cbn. destruct (isDetecting v); reflexivity.
  - exists (drawable_item pred). intros s.
    unfold render_cleared, ctx_clearRect. rewrite bind_update.
    set (c := set_canvas [] s).
    change (font (ctx (page s))) with (font (ctx (page c))). clearbody c.
    unfold drawPredictions, array_items. rewrite bind_ret.
    pose proof (drawPrediction_font pred c) as H1.
    pose proof (drawPrediction_any measureText engine_toString string_to_number pred c)
      as (_ & _ & Hc).
    cbn [forEach]. unfold bind, read, ret.
    destruct (drawPrediction _ _ _ pred c) as [r s1 t1]. cbn [completion final emitted] in *.
    destruct (drawable_item pred).
    + subst r.
      pose proof (forEach_drawPrediction_label_font items s1 H1) as H2.
      destruct (forEach items _ s1) as [[[]|e] s2 t2]; cbn [completion final emitted] in *;
        [|exact H2].
      destruct (isDetecting (vars s2)); cbn; exact H2.
    + destruct Hc as [[msg Hc] _]. cbn [completion] in Hc. subst r. exact H1.
Qed.

(** X2. From the second rendering on the picture is stable: when a
    parsed value of any shape is rendered three times, the surface
    cleared before each rendering, the second and the third picture are
    the same, whatever the context held at first. *)
Theorem render_stable_after_first (predictions : Json) (s : State) :
  let s1 := final (render_cleared measureText engine_toString string_to_number predictions s) in
  let s2 := final (render_cleared measureText engine_toString string_to_number predictions s1) in
  let s3 := final (render_cleared measureText engine_toString string_to_number predictions s2) in
  canvas (page s2) = canvas (page s3).
Proof.
  cbv zeta. apply render_cleared_by_font.
  destruct (render_cleared_font predictions) as [label_font Hf].
  rewrite (Hf (final (render_cleared measureText engine_toString string_to_number
                        predictions s))).
  rewrite (Hf s). destruct label_font; reflexivity.
Qed.

(** X3. An activation of the render loop in an active session whose
    slot holds a list of detections as the interface of the service has
    them paints the video frame and over it the boxes of the detections,
    in slot order; it sets the status by whether the list is empty, it
    changes none of the script's variables, and it queues itself for the
    next display refresh. *)
Theorem renderLoop_paints_slot (s : State) (D : list Detection) :
  isDetecting (vars s) = true ->
  latestPredictions (vars s) = detections D ->
  let o := renderLoop measureText engine_toString string_to_number s in
  completion o = Normal tt
  /\ (exists new : list DrawOp,
        canvas (page (final o)) = canvas (page s) ++ DrawImage :: new
        /\ filter (fun op => is_StrokeRect op = true) new = map box_op D)
  /\ statusText (page (final o)) = detection_status D
  /\ vars (final o) = vars s
  /\ raf_pending (browser (final o)) = S (raf_pending (browser s)).
Proof.
  intros Ha Hs. cbv zeta.
  destruct s as [[st d lp id] [sb tb tx so vl cx cv] b]. cbn in Ha, Hs. subst d lp.
  unfold renderLoop, bind, read, ret, read_latestPredictions, ctx_drawImage, paint,
    requestAnimationFrame, update, emit.
  cbn -[drawPredictions detections].
  rewrite drawPredictions_final.
  cbn -[ops_of_list context_after detection_status].
  split; [reflexivity|]. split; [|repeat split; reflexivity].
  exists (ops_of_list measureText engine_toString (font cx) D).
  split; [rewrite <- app_assoc; reflexivity | apply strokes_of_list].
Qed.
End RendererMore.


(** X3 at a started session whose slot holds the sample detection. *)
Lemma renderLoop_paints_slot_witness :
  isDetecting
    (vars (sample_run [IntervalFired 1 sample_image;
                       FetchSettled 0 (Fulfilled {| status := 200 |});
                       JsonSettled 0 (Fulfilled (detections [sample_detection]))]
                      session_started)) = true
  /\ latestPredictions
       (vars (sample_run [IntervalFired 1 sample_image;
                          FetchSettled 0 (Fulfilled {| status := 200 |});
                          JsonSettled 0 (Fulfilled (detections [sample_detection]))]
                         session_started)) = detections [sample_detection]
  /\ statusText
       (page (final (renderLoop sample_measureText sample_toString sample_string_to_number
                       (sample_run [IntervalFired 1 sample_image;
                                    FetchSettled 0 (Fulfilled {| status := 200 |});
                                    JsonSettled 0 (Fulfilled (detections [sample_detection]))]
                                   session_started))))
     = TextContent "Detection active.".
Proof.
  assert (Ha : isDetecting
                 (vars (sample_run [IntervalFired 1 sample_image;
                                    FetchSettled 0 (Fulfilled {| status := 200 |});
                                    JsonSettled 0 (Fulfilled (detections [sample_detection]))]
                                   session_started)) = true)
    by (vm_compute; reflexivity).
  assert (Hs : latestPredictions
                 (vars (sample_run [IntervalFired 1 sample_image;
                                    FetchSettled 0 (Fulfilled {| status := 200 |});
                                    JsonSettled 0 (Fulfilled (detections [sample_detection]))]
                                   session_started)) = detections [sample_detection])
    by (vm_compute; reflexivity).
  split; [exact Ha|]. split; [exact Hs|].
  exact (proj1 (proj2 (proj2 (renderLoop_paints_slot sample_measureText sample_toString
                                sample_string_to_number _ _ Ha Hs)))).
Defined.

(** ** The render loop *)

#[global] Instance same_queue_preorder : PreOrder same_queue.
Proof. split; [intros s | intros s1 s2 s3]; unfold same_queue; congruence. Qed.

Section RenderLoopMore.
Variable measureText : string -> string -> float.
Variable engine_toString : float -> string.
Variable string_to_number : string -> float.

(** Only a display refresh and the listener for [loadedmetadata] change
    the queue of activations. *)
Lemma other_events_same_queue ev :
  ev <> AnimationFrame -> ev <> LoadedMetadata ->
  respects same_queue any_effect (handle measureText engine_toString string_to_number ev).
Proof.
  intros Hev Hev'. destruct ev; try congruence;
    unfold handle, stopDetection, startDetection, startDetection_resumed,
      predictionLoop, predictionLoop_response, predictionLoop_json;
    unfold stopDetection, predictionLoop_catch;
    unfold getUserMedia, clearInterval,
      getTracks, track_stop, video_addEventListener, console_error,
      write_latestPredictions, ctx_clearRect, fetch;
    repeat respects_step; unfold same_queue, any_effect; cbn; try reflexivity; try exact I.
Qed.

Lemma step_keeps_queue_empty ev s :
  is_LoadedMetadata ev = false ->
  raf_pending (browser s) = 0%nat ->
  raf_pending (browser (step measureText engine_toString string_to_number ev s)) = 0%nat.
Proof.
  intros Hev Hq.
  assert (ev = AnimationFrame \/ ev <> AnimationFrame) as [->|Hne]
    by (destruct ev; (left; reflexivity) || (right; discriminate)).
  - destruct (animation_frame measureText engine_toString string_to_number s) as [_ Hr].
    rewrite Hr, Hq. destruct (_ && _); reflexivity.
  - assert (Hne' : ev <> LoadedMetadata) by (intros ->; discriminate Hev).
    destruct (other_events_same_queue ev Hne Hne' s) as [Hr _].
    unfold same_queue, step in *. congruence.
Qed.

(** X16. Only the listener for [loadedmetadata] starts the render loop.
    When no activation is queued, none is queued after any sequence of
    events without [loadedmetadata]: a loop that has ended, by stop() or
    by an exception thrown in [drawPredictions], is started again by no
    display refresh, click, timer activation or response, whatever a
    response puts in the slot. *)
Theorem ended_render_loop_stays_ended (evs : list Event) (s : State) :
  raf_pending (browser s) = 0%nat ->
  forallb (fun ev => negb (is_LoadedMetadata ev)) evs = true ->
  raf_pending (browser (run measureText engine_toString string_to_number evs s)) = 0%nat.
Proof.
  revert s. induction evs as [|ev evs IH]; intros s Hq Hevs; cbn [run]; [exact Hq|].
  cbn [forallb] in Hevs. apply andb_prop in Hevs. destruct Hevs as [Hev Hevs].
  apply IH; [|exact Hevs]. apply step_keeps_queue_empty; [|exact Hq].
  destruct (is_LoadedMetadata ev); [discriminate Hev | reflexivity].
Qed.
End RenderLoopMore.

(** X16 after the render loop has met the error body: the next
    prediction puts the sample detection in the slot, the session is
    still active, and the display refresh that follows runs no
    activation. *)
Lemma ended_render_loop_stays_ended_witness :
  raf_pending (browser render_loop_ended) = 0%nat
  /\ forallb (fun ev => negb (is_LoadedMetadata ev))
       [IntervalFired 1 sample_image;
        FetchSettled 1 (Fulfilled {| status := 200 |});
        JsonSettled 1 (Fulfilled (detections [sample_detection]));
        AnimationFrame] = true
  /\ raf_pending
       (browser (run sample_measureText sample_toString sample_string_to_number
                   [IntervalFired 1 sample_image;
                    FetchSettled 1 (Fulfilled {| status := 200 |});
                    JsonSettled 1 (Fulfilled (detections [sample_detection]));
                    AnimationFrame]
                   render_loop_ended)) = 0%nat
  /\ isDetecting
       (vars (run sample_measureText sample_toString sample_string_to_number
                [IntervalFired 1 sample_image;
                 FetchSettled 1 (Fulfilled {| status := 200 |});
                 JsonSettled 1 (Fulfilled (detections [sample_detection]));
                 AnimationFrame]
                render_loop_ended)) = true
  /\ latestPredictions
       (vars (run sample_measureText sample_toString sample_string_to_number
                [IntervalFired 1 sample_image;
                 FetchSettled 1 (Fulfilled {| status := 200 |});
                 JsonSettled 1 (Fulfilled (detections [sample_detection]));
                 AnimationFrame]
                render_loop_ended)) = detections [sample_detection].
Proof.
  assert (Hq : raf_pending (browser render_loop_ended) = 0%nat) by (vm_compute; reflexivity).
  assert (Hevs : forallb (fun ev => negb (is_LoadedMetadata ev))
                   [IntervalFired 1 sample_image;
                    FetchSettled 1 (Fulfilled {| status := 200 |});
                    JsonSettled 1 (Fulfilled (detections [sample_detection]));
                    AnimationFrame] = true) by reflexivity.
  split; [exact Hq|]. split; [exact Hevs|].
  split; [|split; vm_compute; reflexivity].
  exact (ended_render_loop_stays_ended sample_measureText sample_toString
           sample_string_to_number _ _ Hq Hevs).
Defined.

(** ** The prediction loop *)

Section PredictionLoopMore.
Variable measureText : string -> string -> float.
Variable engine_toString : float -> string.
Variable string_to_number : string -> float.

Lemma json_fulfilled (s : State) (req : nat) (v : Json) :
  requests (browser s) !! req = Some AwaitingBody ->
  handle measureText engine_toString string_to_number (JsonSettled req (Fulfilled v)) s
  = {| completion := Normal tt;
       final := set_latestPredictions v
                  (set_requests (delete req (requests (browser s))) s);
       emitted := [SlotWrite PredictionLoop v] |}.
Proof.
  intros H. unfold handle, predictionLoop_json, write_latestPredictions, try_catch, await,
    bind, read, update, emit, ret.
  cbn. rewrite H. reflexivity.
Qed.

Lemma fetch_fulfilled_ok (s : State) (req : nat) (r : Response) :
  requests (browser s) !! req = Some AwaitingResponse ->
  ok r = true ->
  handle measureText engine_toString string_to_number (FetchSettled req (Fulfilled r)) s
  = {| completion := Normal tt;
       final := set_requests (<[req := AwaitingBody]> (delete req (requests (browser s))))
                  (set_requests (delete req (requests (browser s))) s);
       emitted := [] |}.
Proof.
  intros H Hok. unfold handle, predictionLoop_response, try_catch, await,
    bind, read, update, emit, ret, throw.
  cbn. rewrite H. cbn. rewrite Hok. reflexivity.
Qed.

(** X4. A prediction cycle that succeeds: when the response of an
    outstanding request has a success status nothing is assigned or
    logged and the request waits for its body; when the body has been
    parsed the slot holds exactly the parsed value, of whatever shape,
    whatever it held before and whether or not the session is still
    active, and the request is no longer outstanding. *)
Theorem successful_prediction_replaces_slot
    (s : State) (req : nat) (r : Response) (v : Json) :
  requests (browser s) !! req = Some AwaitingResponse ->
  ok r = true ->
  let o1 := handle measureText engine_toString string_to_number (FetchSettled req (Fulfilled r)) s in
  let o2 := handle measureText engine_toString string_to_number (JsonSettled req (Fulfilled v)) (final o1) in
  completion o1 = Normal tt
  /\ emitted o1 = []
  /\ vars (final o1) = vars s
  /\ requests (browser (final o1)) !! req = Some AwaitingBody
  /\ completion o2 = Normal tt
  /\ emitted o2 = [SlotWrite PredictionLoop v]
  /\ latestPredictions (vars (final o2)) = v
  /\ isDetecting (vars (final o2)) = isDetecting (vars s)
  /\ requests (browser (final o2)) = delete req (requests (browser s))
  /\ page (final o2) = page s.
Proof.
  intros H Hok. cbv zeta. rewrite (fetch_fulfilled_ok s req r H Hok). cbn [completion final emitted].
  assert (H2 : requests
                 (browser (set_requests
                             (<[req := AwaitingBody]> (delete req (requests (browser s))))
                             (set_requests (delete req (requests (browser s))) s))) !! req
               = Some AwaitingBody).
  { cbn. apply lookup_insert_eq. }
  rewrite (json_fulfilled _ req v H2). cbn [completion final emitted].
  repeat split; try reflexivity; try exact H2.
  cbn. rewrite delete_insert_eq, delete_delete_eq. reflexivity.
Qed.

(** X5. The last response to resolve wins: with two requests waiting for
    their bodies, the slot ends with the value of the body that settles
    second, in either order, so not with that of the request sent last. *)
Theorem last_response_wins (s : State) (r1 r2 : nat) (v1 v2 : Json) :
  r1 <> r2 ->
  requests (browser s) !! r1 = Some AwaitingBody ->
  requests (browser s) !! r2 = Some AwaitingBody ->
  latestPredictions
    (vars (run measureText engine_toString string_to_number
             [JsonSettled r1 (Fulfilled v1); JsonSettled r2 (Fulfilled v2)] s)) = v2
  /\ latestPredictions
       (vars (run measureText engine_toString string_to_number
                [JsonSettled r2 (Fulfilled v2); JsonSettled r1 (Fulfilled v1)] s)) = v1.
Proof.
  intros Hne H1 H2. cbn [run]. unfold step.
  rewrite (json_fulfilled s r1 v1 H1), (json_fulfilled s r2 v2 H2). cbn [final].
  rewrite json_fulfilled by (cbn; rewrite lookup_delete_ne by congruence; exact H2).
  rewrite json_fulfilled by (cbn; rewrite lookup_delete_ne by congruence; exact H1).
  split; reflexivity.
Qed.
End PredictionLoopMore.

(** ** Invariants of executions *)

#[global] Instance keeps_preorder (Inv : State -> Prop) : PreOrder (keeps Inv).
Proof. split; [intros s | intros s1 s2 s3]; unfold keeps; auto. Qed.

#[global] Instance handles_kept_preorder : PreOrder handles_kept.
Proof.
  split; [intros s | intros s1 s2 s3]; unfold handles_kept; [tauto|].
  intros [H1 H2] [H3 H4]. split; auto.
Qed.

Lemma respects_final {A} (R : State -> State -> Prop) (c : Js A) :
  (forall s, R s (final (c s))) -> respects R any_effect c.
Proof. intros H s. split; [apply H | apply Forall_forall; intros; exact I]. Qed.

Section Invariants.
Variable measureText : string -> string -> float.
Variable engine_toString : float -> string.
Variable string_to_number : string -> float.

Lemma run_invariant (Inv : State -> Prop) :
  (forall ev s, Inv s -> Inv (step measureText engine_toString string_to_number ev s)) ->
  forall evs s, Inv s -> Inv (run measureText engine_toString string_to_number evs s).
Proof.
  intros Hstep evs. induction evs as [|ev evs IH]; intros s Hs; cbn [run]; auto.
Qed.

(** The ids in use stay below the next ones. *)

Lemma fetch_fresh img : respects (keeps ids_fresh) any_effect (fetch img).
Proof.
  apply respects_final. intros s [Hr Hi]. split; [|exact Hi].
  intros r. cbn. intros Hs.
  destruct (decide (r = next_request (browser s))) as [->|Hne]; [lia|].
  rewrite lookup_insert_ne in Hs by congruence. specialize (Hr r Hs). lia.
Qed.

Lemma setInterval_fresh : respects (keeps ids_fresh) any_effect setInterval.
Proof.
  apply respects_final. intros s [Hr Hi]. split; [exact Hr|].
  intros i. cbn. rewrite elem_of_union, elem_of_singleton. intros [->|Hin]; [lia|].
  specialize (Hi i Hin). lia.
Qed.

Lemma clearInterval_fresh id : respects (keeps ids_fresh) any_effect (clearInterval id).
Proof.
  apply respects_final. intros s [Hr Hi]. destruct id as [i|]; [|split; assumption].
  split; [exact Hr|]. intros j. cbn. rewrite elem_of_difference. intros [Hin _]. auto.
Qed.

Lemma stopDetection_fresh : respects (keeps ids_fresh) any_effect stopDetection.
Proof.
  apply respects_final. intros s [Hr Hi]. rewrite stopDetection_spec. cbn [final].
  split; [exact Hr|]. intros j. unfold stopped. cbn.
  destruct (predictionIntervalId (vars s)); [rewrite elem_of_difference; intros [Hin _]|];
    auto.
Qed.

Lemma drawPredictions_fresh v :
  respects (keeps ids_fresh) any_effect (drawPredictions measureText engine_toString string_to_number v).
Proof.
  apply respects_final. intros s [Hr Hi].
  destruct (drawPredictions_any measureText engine_toString string_to_number v s)
    as (_ & (_ & Hb & _) & _).
  unfold ids_fresh. rewrite Hb. split; assumption.
Qed.

Lemma step_fresh ev s :
  ids_fresh s -> ids_fresh (step measureText engine_toString string_to_number ev s).
Proof.
  assert (Hleaf : forall f : State -> State,
            (forall s, browser (f s) = browser s) ->
            forall s, keeps ids_fresh s (f s)).
  { intros f Hf s0 [Hr Hi]. unfold ids_fresh. rewrite Hf. split; assumption. }
  destruct ev as [| |p| | |id img|req p|req p].
  7: { (* the response of a request: it stays the same request *)
    intros [Hr Hi]. unfold step, handle, predictionLoop_response, predictionLoop_catch,
      console_error, write_latestPredictions, try_catch, await, bind, read, update, emit,
      ret, throw.
    cbn. destruct (requests (browser s) !! req) as [[|]|] eqn:E; cbn;
      try (split; assumption).
    assert (Hreq : (req < next_request (browser s))%nat) by (apply Hr; rewrite E; eauto).
    assert (Hdel : forall r, is_Some (delete req (requests (browser s)) !! r) ->
                             (r < next_request (browser s))%nat).
    { intros r Hs. apply Hr. destruct (decide (req = r)) as [->|Hne].
      - rewrite lookup_delete_eq in Hs. destruct Hs; discriminate.
      - rewrite lookup_delete_ne in Hs by exact Hne. exact Hs. }
    destruct p as [r|e]; cbn; [destruct (ok r); cbn|]; split; cbn; try assumption.
    intros r0 Hs. destruct (decide (req = r0)) as [->|Hne]; [exact Hreq|].
    rewrite lookup_insert_ne in Hs by exact Hne. auto. }
  all: intros Hs;
    match goal with
    | |- ids_fresh (step _ _ _ ?ev _) =>
        cut (respects (keeps ids_fresh) any_effect (handle measureText engine_toString string_to_number ev));
        [intros Hresp; exact (proj1 (Hresp s) Hs)|]
    end;
    unfold handle, startDetection, startDetection_resumed, onLoadedMetadata, renderLoop,
      predictionLoop, predictionLoop_json, predictionLoop_catch;
    unfold getUserMedia, video_play, requestAnimationFrame, video_addEventListener,
      console_error, write_latestPredictions, read_latestPredictions, ctx_drawImage, paint;
    repeat first
      [ apply fetch_fresh | apply setInterval_fresh | apply clearInterval_fresh
      | apply stopDetection_fresh | apply drawPredictions_fresh | respects_step ];
    try exact I; try (apply Hleaf; intros; reflexivity).
  all: clear Hs; intros [Hr Hi]; split; cbn; try assumption.
  all: intros r Hs; apply Hr;
    match type of Hs with
    | is_Some (delete ?q _ !! _) =>
        destruct (decide (q = r)) as [->|Hne];
        [rewrite lookup_delete_eq in Hs; destruct Hs; discriminate
        |rewrite lookup_delete_ne in Hs by exact Hne; exact Hs]
    end.
Qed.

Lemma loaded_fresh a b st : ids_fresh (loaded a b st).
Proof.
  split; cbn.
  - intros r Hs. rewrite lookup_empty in Hs. destruct Hs; discriminate.
  - intros i Hin. apply not_elem_of_empty in Hin. contradiction.
Qed.

(** X6. In every execution from the loaded page, a timer activation
    ends normally; when the session is active and the timer is live it
    sends exactly one request, under an id no outstanding request has,
    and every request that was outstanding still is: the number of
    outstanding requests grows by one and nothing else changes. In any
    other case the activation does nothing at all. *)
Theorem timer_activation_sends_one_request
    (start_disabled stop_disabled : bool) (status : StatusContent) (evs : list Event)
    (id : nat) (img : string) :
  let s := run measureText engine_toString string_to_number evs (loaded start_disabled stop_disabled status) in
  let o := handle measureText engine_toString string_to_number (IntervalFired id img) s in
  completion o = Normal tt
  /\ (if isDetecting (vars s) && bool_decide (id ∈ intervals (browser s))
      then emitted o = [CallFetch (next_request (browser s)) img]
           /\ requests (browser s) !! next_request (browser s) = None
           /\ requests (browser (final o))
              = <[next_request (browser s) := AwaitingResponse]> (requests (browser s))
           /\ size (requests (browser (final o))) = S (size (requests (browser s)))
           /\ vars (final o) = vars s
           /\ page (final o) = page s
      else final o = s /\ emitted o = []).
Proof.
  cbv zeta.
  set (s := run measureText engine_toString string_to_number evs (loaded start_disabled stop_disabled status)).
  assert (Hfresh : ids_fresh s)
    by (apply run_invariant; [intros; apply step_fresh; assumption | apply loaded_fresh]).
  assert (Hnone : requests (browser s) !! next_request (browser s) = None).
  { destruct (requests (browser s) !! next_request (browser s)) eqn:E; [|reflexivity].
    destruct Hfresh as [Hr _]. specialize (Hr (next_request (browser s))).
    rewrite E in Hr. specialize (Hr (ltac:(eauto))). lia. }
  unfold handle, predictionLoop, fetch, bind, read, update, emit, ret. cbn.
  destruct (bool_decide (id ∈ intervals (browser s))); cbn;
    [|rewrite andb_false_r; repeat split; reflexivity].
  destruct (isDetecting (vars s)); cbn; [|repeat split; reflexivity].
  repeat split; try reflexivity; try exact Hnone.
  apply map_size_insert_None. exact Hnone.
Qed.
End Invariants.

Lemma startDetection_final (s : State) :
  startDetection s
  = {| completion := Normal tt;
       final := set_gum_pending (S (gum_pending (browser s)))
                  (set_statusText (TextContent "Initializing Webcam...")
                     (set_stopButton_disabled false
                        (set_startButton_disabled true (set_isDetecting true s))));
       emitted := [CallGetUserMedia] |}.
Proof. reflexivity. Qed.

Lemma granted_final (s : State) (st : MediaStream) :
  startDetection_resumed (Fulfilled st) s
  = {| completion := Normal tt;
       final := set_video_listeners (S (video_listeners (page s)))
                  (set_video_srcObject (Some st) (set_stream (Some st) s));
       emitted := [] |}.
Proof. reflexivity. Qed.

(** Closes the side conditions of the logic for a relation [keeps Inv]:
    an assignment that leaves alone what [Inv] reads. *)
Ltac keeps_trivially :=
  try exact I;
  try (unfold keeps, stop_available, clear_when_inactive, status_known, handles_kept;
       cbn; solve [tauto | eauto]).

Section SessionInvariants.
Variable measureText : string -> string -> float.
Variable engine_toString : float -> string.
Variable string_to_number : string -> float.

Ltac into_logic Inv s Hs :=
  match goal with
  | |- _ (step _ _ _ ?ev _) =>
      cut (respects (keeps Inv) any_effect (handle measureText engine_toString string_to_number ev));
      [let H := fresh in intros H; exact (proj1 (H s) Hs)|]
  end.

Ltac unfold_script :=
  unfold handle, startDetection_resumed, onLoadedMetadata,
    predictionLoop, predictionLoop_response, predictionLoop_json, predictionLoop_catch;
  unfold getUserMedia, video_play, requestAnimationFrame, video_addEventListener,
    setInterval, fetch, console_error, write_latestPredictions.

(** While the flag is set, stop is available and start is not. *)

Lemma renderLoop_stop_available :
  respects (keeps stop_available) any_effect (renderLoop measureText engine_toString string_to_number).
Proof.
  assert (Hdraw : forall s s', overlay_only s s' -> keeps stop_available s s').
  { intros s s' (Hv & _ & Hsb & Htb & _) Hs. unfold stop_available in *.
    rewrite Hv, Hsb, Htb. exact Hs. }
  unfold renderLoop, read_latestPredictions, ctx_drawImage, paint, requestAnimationFrame.
  repeat first [ apply drawPredictions_respects; exact Hdraw | respects_step ];
    keeps_trivially.
Qed.

Lemma step_stop_available ev s :
  stop_available s -> stop_available (step measureText engine_toString string_to_number ev s).
Proof.
  intros Hs. into_logic stop_available s Hs. clear Hs s.
  assert (Hstop : respects (keeps stop_available) any_effect stopDetection).
  { apply respects_final. intros s _. rewrite stopDetection_spec. intros H. discriminate H. }
  assert (Hstart : respects (keeps stop_available) any_effect startDetection).
  { apply respects_final. intros s _. rewrite startDetection_final. intros _. split; reflexivity. }
  destruct ev; unfold_script;
    repeat first [ apply Hstop | apply Hstart | apply renderLoop_stop_available
                 | respects_step ];
    keeps_trivially.
Qed.

(** While the flag is cleared the surface is clear. *)

Lemma renderLoop_clear :
  respects (keeps clear_when_inactive) any_effect (renderLoop measureText engine_toString string_to_number).
Proof.
  apply respects_final. intros s Hs.
  destruct (isDetecting (vars s)) eqn:E.
  - destruct (renderLoop_spec measureText engine_toString string_to_number s) as (Hv & _).
    intros H. rewrite Hv, E in H. discriminate H.
  - rewrite (renderLoop_inactive measureText engine_toString string_to_number s E). exact Hs.
Qed.

Lemma step_clear_when_inactive ev s :
  clear_when_inactive s -> clear_when_inactive (step measureText engine_toString string_to_number ev s).
Proof.
  intros Hs. into_logic clear_when_inactive s Hs. clear Hs s.
  assert (Hstop : respects (keeps clear_when_inactive) any_effect stopDetection).
  { apply respects_final. intros s _. rewrite stopDetection_spec. intros _. reflexivity. }
  assert (Hstart : respects (keeps clear_when_inactive) any_effect startDetection).
  { apply respects_final. intros s _. rewrite startDetection_final. intros H. discriminate H. }
  destruct ev; unfold_script;
    repeat first [ apply Hstop | apply Hstart | apply renderLoop_clear | respects_step ];
    keeps_trivially.
Qed.

(** X7. In every execution from the loaded page, whenever the active
    flag is set the start button is disabled and the stop button is
    enabled: a session that counts as active can always be stopped and
    cannot be started a second time. *)
Theorem active_session_can_be_stopped
    (start_disabled stop_disabled : bool) (status : StatusContent) (evs : list Event) :
  let s := run measureText engine_toString string_to_number evs (loaded start_disabled stop_disabled status) in
  isDetecting (vars s) = true ->
  startButton_disabled (page s) = true /\ stopButton_disabled (page s) = false.
Proof.
  cbv zeta. apply (run_invariant measureText engine_toString string_to_number stop_available).
  - intros ev s. apply step_stop_available.
  - intros H. discriminate H.
Qed.

(** X8. In every execution from the loaded page, whenever the active
    flag is cleared the surface is clear: nothing is painted outside a
    session, and stop() leaves no frame or box behind. *)
Theorem inactive_surface_is_clear
    (start_disabled stop_disabled : bool) (status : StatusContent) (evs : list Event) :
  let s := run measureText engine_toString string_to_number evs (loaded start_disabled stop_disabled status) in
  isDetecting (vars s) = false -> canvas (page s) = [].
Proof.
  cbv zeta. apply (run_invariant measureText engine_toString string_to_number clear_when_inactive).
  - intros ev s. apply step_clear_when_inactive.
  - intros _. reflexivity.
Qed.

(** The handles are never dropped. *)

Lemma step_handles_kept ev s : handles_kept s (step measureText engine_toString string_to_number ev s).
Proof.
  cut (respects handles_kept any_effect (handle measureText engine_toString string_to_number ev));
    [intros H; exact (proj1 (H s))|]. clear s.
  assert (Hstop : respects handles_kept any_effect stopDetection).
  { apply respects_final. intros s. rewrite stopDetection_spec. split; intros H; exact H. }
  assert (Hdraw : forall v, respects handles_kept any_effect
                              (drawPredictions measureText engine_toString string_to_number v)).
  { intros v. apply drawPredictions_respects. intros s s' (Hv & _).
    unfold handles_kept. rewrite Hv. tauto. }
  destruct ev; unfold_script; unfold startDetection, renderLoop, getUserMedia,
      read_latestPredictions, ctx_drawImage, paint, requestAnimationFrame;
    repeat first [ apply Hstop | apply Hdraw | respects_step ];
    keeps_trivially.
Qed.

(** X9. The script never lets go of a handle: once the stream variable
    holds a stream it holds one after every later event, and so does the
    timer id. stop() ends the tracks and clears the timer but resets
    neither variable. *)
Theorem handles_never_reset (evs : list Event) (s : State) :
  (is_Some (stream (vars s)) ->
   is_Some (stream (vars (run measureText engine_toString string_to_number evs s))))
  /\ (is_Some (predictionIntervalId (vars s)) ->
      is_Some (predictionIntervalId (vars (run measureText engine_toString string_to_number evs s)))).
Proof.
  revert s. induction evs as [|ev evs IH]; intros s; cbn [run]; [tauto|].
  destruct (step_handles_kept ev s) as [H1 H2].
  destruct (IH (step measureText engine_toString string_to_number ev s)) as [H3 H4]. split; auto.
Qed.

(** The status texts. *)

Lemma step_status_known markup ev s :
  status_known markup s -> status_known markup (step measureText engine_toString string_to_number ev s).
Proof.
  intros Hs. into_logic (status_known markup) s Hs. clear Hs s.
  assert (Hstop : respects (keeps (status_known markup)) any_effect stopDetection).
  { apply respects_final. intros s _. rewrite stopDetection_spec.
    unfold status_known, script_statuses. cbn. repeat constructor. }
  assert (Hres : forall p, respects (keeps (status_known markup)) any_effect
                             (startDetection_resumed p)).
  { intros [st|e]; apply respects_final; intros s Hs.
    - rewrite granted_final. exact Hs.
    - destruct (failed_start_rolls_back s e) as [_ Hf]. rewrite Hf.
      unfold status_known, script_statuses. cbn. repeat constructor. }
  assert (Hdraw : forall v, respects (keeps (status_known markup)) any_effect
                              (drawPredictions measureText engine_toString string_to_number v)).
  { intros v. apply drawPredictions_respects.
    intros s s' (_ & _ & _ & _ & _ & _ & _ & [Hst|[Hst|Hst]]) Hs;
      unfold status_known, script_statuses in *; rewrite Hst;
      [exact Hs | repeat constructor | repeat constructor]. }
  destruct ev;
    unfold handle, onLoadedMetadata, predictionLoop, predictionLoop_response,
      predictionLoop_json, predictionLoop_catch, startDetection, renderLoop;
    unfold getUserMedia, video_play, requestAnimationFrame, video_addEventListener,
      setInterval, fetch, console_error, write_latestPredictions, read_latestPredictions,
      ctx_drawImage, paint;
    repeat first [ apply Hstop | apply Hres | apply Hdraw | respects_step ];
    keeps_trivially;
    intros _; unfold status_known, script_statuses; cbn; repeat constructor.
Qed.

(** X10. In every execution from the loaded page the status element
    holds, between events, the text of the markup or one of the five
    texts the script assigns with [textContent]; the error markup that
    the failure handler of start() assigns is never among them. *)
Theorem status_is_one_of_five
    (start_disabled stop_disabled : bool) (status : StatusContent) (evs : list Event) :
  let s := run measureText engine_toString string_to_number evs (loaded start_disabled stop_disabled status) in
  statusText (page s) ∈ script_statuses status
  /\ (status <> webcam_error -> statusText (page s) <> webcam_error).
Proof.
  cbv zeta.
  assert (H : status_known status
                (run measureText engine_toString string_to_number evs
                   (loaded start_disabled stop_disabled status))).
  { apply run_invariant; [intros; apply step_status_known; assumption|].
    unfold status_known, script_statuses. cbn. constructor. }
  split; [exact H|]. intros Hm Heq. unfold status_known in H. rewrite Heq in H.
  unfold script_statuses in H.
  apply elem_of_cons in H. destruct H as [H|H]; [congruence|].
  repeat (apply elem_of_cons in H; destruct H as [H|H]; [discriminate H|]).
  apply elem_of_nil in H. exact H.
Qed.
End SessionInvariants.

(** ** The session controller *)

Lemma onLoadedMetadata_final (s : State) :
  onLoadedMetadata s
  = {| completion := Normal tt;
       final :=
         set_predictionIntervalId (Some (next_interval (browser s)))
           (set_next_interval (S (next_interval (browser s)))
              (set_intervals ({[next_interval (browser s)]} ∪ intervals (browser s))
                 (set_raf_pending (S (raf_pending (browser s)))
                    (set_statusText (TextContent "Webcam active. Detecting...") s))));
       emitted := [CallVideoPlay; CallRequestAnimationFrame;
                   CallSetInterval (next_interval (browser s))] |}.
Proof. reflexivity. Qed.

Lemma callbacks_onLoadedMetadata n : forall s,
  let s' := final (callbacks n onLoadedMetadata s) in
  raf_pending (browser s') = (n + raf_pending (browser s))%nat
  /\ next_interval (browser s') = (n + next_interval (browser s))%nat
  /\ intervals (browser s')
     = list_to_set (seq (next_interval (browser s)) n) ∪ intervals (browser s)
  /\ predictionIntervalId (vars s')
     = match n with
       | O => predictionIntervalId (vars s)
       | S k => Some (k + next_interval (browser s))%nat
       end
  /\ isDetecting (vars s') = isDetecting (vars s)
  /\ stream (vars s') = stream (vars s).
Proof.
  induction n as [|n IH]; intros s; cbv zeta.
  - cbn. rewrite (left_id_L ∅ (∪)). repeat split; reflexivity.
  - cbn [callbacks]. unfold bind, try_catch. rewrite onLoadedMetadata_final.
    specialize (IH (set_predictionIntervalId (Some (next_interval (browser s)))
           (set_next_interval (S (next_interval (browser s)))
              (set_intervals ({[next_interval (browser s)]} ∪ intervals (browser s))
                 (set_raf_pending (S (raf_pending (browser s)))
                    (set_statusText (TextContent "Webcam active. Detecting...") s)))))).
    cbv zeta in IH. destruct (callbacks n onLoadedMetadata _) as [r s2 t2].
    cbn [final] in *. destruct IH as (I1 & I2 & I3 & I4 & I5 & I6).
    cbn [set_predictionIntervalId set_next_interval set_intervals set_raf_pending
         set_statusText upd_vars upd_page upd_browser vars page browser
         raf_pending next_interval intervals predictionIntervalId isDetecting stream] in *.
    rewrite I1, I2, I3, I4, I5, I6. repeat split; try lia.
    + cbn [seq list_to_set]. apply set_eq. intros x.
      rewrite !elem_of_union. tauto.
    + destruct n; f_equal; lia.
Qed.

#[global] Instance listeners_kept_preorder : PreOrder listeners_kept.
Proof. split; [intros s | intros s1 s2 s3]; unfold listeners_kept; lia. Qed.

Section SessionControllerMore.
Variable measureText : string -> string -> float.
Variable engine_toString : float -> string.
Variable string_to_number : string -> float.

Lemma step_listeners_kept ev s : listeners_kept s (step measureText engine_toString string_to_number ev s).
Proof.
  cut (respects listeners_kept any_effect (handle measureText engine_toString string_to_number ev));
    [intros H; exact (proj1 (H s))|]. clear s.
  assert (Hstop : respects listeners_kept any_effect stopDetection).
  { apply respects_final. intros s. rewrite stopDetection_spec. unfold listeners_kept. cbn. lia. }
  assert (Hdraw : forall v, respects listeners_kept any_effect
                              (drawPredictions measureText engine_toString string_to_number v)).
  { intros v. apply drawPredictions_respects.
    intros s s' (_ & _ & _ & _ & _ & Hvl & _). unfold listeners_kept. lia. }
  destruct ev;
    unfold handle, startDetection_resumed, onLoadedMetadata, predictionLoop,
      predictionLoop_response, predictionLoop_json, predictionLoop_catch, startDetection,
      renderLoop;
    unfold getUserMedia, video_play, requestAnimationFrame, video_addEventListener,
      setInterval, fetch, console_error, write_latestPredictions, read_latestPredictions,
      ctx_drawImage, paint;
    repeat first [ apply Hstop | apply Hdraw | respects_step ];
    try exact I; unfold listeners_kept; cbn; lia.
Qed.

(** X11. Listeners pile up: a granted start adds one 'loadedmetadata'
    listener and no event removes one. When the event fires on a video
    with a stream, every listener added so far runs: with [n] listeners
    it queues [n] render activations and starts [n] timers, with the next
    [n] ids, and the timer id variable holds only the last. A stop() after
    it clears that timer alone and the other [n - 1] stay live. *)
Theorem metadata_runs_every_listener (s : State) :
  is_Some (video_srcObject (page s)) ->
  let n := video_listeners (page s) in
  let first := next_interval (browser s) in
  let s1 := step measureText engine_toString string_to_number LoadedMetadata s in
  raf_pending (browser s1) = (n + raf_pending (browser s))%nat
  /\ intervals (browser s1) = list_to_set (seq first n) ∪ intervals (browser s)
  /\ predictionIntervalId (vars s1)
     = match n with
       | O => predictionIntervalId (vars s)
       | S k => Some (k + first)%nat
       end
  /\ (forall i : nat,
        (first <= i)%nat -> (S i < first + n)%nat ->
        i ∈ intervals (browser (final (stopDetection s1))))
  /\ (forall (evs : list Event) (s0 : State),
        (video_listeners (page s0)
         <= video_listeners (page (run measureText engine_toString string_to_number evs s0)))%nat)
  /\ (forall (st : MediaStream) (s0 : State),
        video_listeners (page (final (startDetection_resumed (Fulfilled st) s0)))
        = S (video_listeners (page s0))).
Proof.
  intros Hsrc. cbv zeta. unfold step, handle, bind, read, ret. cbn [completion final emitted].
  rewrite (bool_decide_eq_true_2 _ Hsrc).
  destruct (callbacks_onLoadedMetadata (video_listeners (page s)) s)
    as (H1 & H2 & H3 & H4 & _).
  destruct (callbacks (video_listeners (page s)) onLoadedMetadata s) as [r s1 t1].
  cbn [final] in *. split; [exact H1|]. split; [exact H3|]. split; [exact H4|]. split; [|split].
  - intros i Hlo Hhi. rewrite stopDetection_spec. cbn [final]. unfold stopped.
    cbn [browser intervals]. rewrite H4, H3.
    assert (Hin : i ∈ (list_to_set (seq (next_interval (browser s))
                                       (video_listeners (page s))) : gset nat)).
    { apply elem_of_list_to_set, elem_of_seq. lia. }
    destruct (video_listeners (page s)) as [|k] eqn:E; [lia|].
    apply elem_of_difference. split; [apply elem_of_union; left; exact Hin|].
    rewrite elem_of_singleton. lia.
  - intros evs. induction evs as [|ev evs IH]; intros s0; cbn [run]; [lia|].
    pose proof (step_listeners_kept ev s0) as Hk. unfold listeners_kept in Hk.
    specialize (IH (step measureText engine_toString string_to_number ev s0)). lia.
  - intros st s0. reflexivity.
Qed.

(** X12. stop() releases what it holds and nothing else: it ends every
    track of the stream it holds, detaches the video, and clears the
    timer whose id it holds, so that a later activation of that timer
    does nothing. It aborts no outstanding request, takes no render
    activation off the queue and cancels no pending camera request. *)
Theorem stopDetection_releases (s : State) :
  let s' := final (stopDetection s) in
  (forall t : nat, t ∈ held_tracks s -> t ∈ ended_tracks (browser s'))
  /\ video_srcObject (page s') = None
  /\ (forall (i : nat) (img : string),
        predictionIntervalId (vars s) = Some i ->
        (i ∉ intervals (browser s'))
        /\ final (handle measureText engine_toString string_to_number (IntervalFired i img) s') = s'
        /\ emitted (handle measureText engine_toString string_to_number (IntervalFired i img) s') = [])
  /\ requests (browser s') = requests (browser s)
  /\ raf_pending (browser s') = raf_pending (browser s)
  /\ gum_pending (browser s') = gum_pending (browser s).
Proof.
  cbv zeta. rewrite stopDetection_spec. cbn [final].
  split; [|split; [reflexivity|split; [|repeat split; reflexivity]]].
  - intros t Ht. unfold stopped. cbn [browser ended_tracks].
    apply elem_of_union. left. apply elem_of_list_to_set. exact Ht.
  - intros i img Hid.
    assert (Hout : i ∉ intervals (browser (stopped s))).
    { unfold stopped. cbn [browser intervals]. rewrite Hid.
      rewrite elem_of_difference, elem_of_singleton. tauto. }
    split; [exact Hout|].
    unfold handle, bind, read, ret. cbn [completion final emitted].
    rewrite (bool_decide_eq_false_2 _ Hout). split; reflexivity.
Qed.

(** X13. stop() does not cancel a camera request that is pending. When
    start is clicked, stop is clicked before the camera is granted, and
    the grant then arrives, the stream is stored and attached to the
    video and none of its tracks is stopped, although the session is
    inactive and the stop button is disabled. *)
Theorem grant_after_stop_keeps_camera (s : State) (st : MediaStream) :
  startButton_disabled (page s) = false ->
  let s1 := run measureText engine_toString string_to_number [ClickStart; ClickStop] s in
  let s2 := step measureText engine_toString string_to_number (GetUserMediaSettled (Fulfilled st)) s1 in
  isDetecting (vars s2) = false
  /\ stream (vars s2) = Some st
  /\ video_srcObject (page s2) = Some st
  /\ ended_tracks (browser s2) = ended_tracks (browser s1)
  /\ track_stops (emitted (handle measureText engine_toString string_to_number
                             (GetUserMediaSettled (Fulfilled st)) s1)) = []
  /\ stopButton_disabled (page s2) = true
  /\ startButton_disabled (page s2) = false.
Proof.
  intros Hen. cbv zeta. cbn [run]. unfold step.
  assert (H1 : handle measureText engine_toString string_to_number ClickStart s = startDetection s).
  { unfold handle, bind, read, ret. cbn [completion final emitted]. rewrite Hen.
    rewrite startDetection_final. reflexivity. }
  rewrite H1, startDetection_final. cbn [final].
  set (s0 := set_gum_pending _ _).
  assert (H2 : final (handle measureText engine_toString string_to_number ClickStop s0) = stopped s0).
  { unfold handle, bind, read, ret. cbn [completion final emitted].
    rewrite stopDetection_spec. reflexivity. }
  rewrite H2.
  unfold handle, bind, read, ret. cbn [completion final emitted].
  replace (gum_pending (browser (stopped s0))) with (S (gum_pending (browser s)))
    by reflexivity.
  unfold update. rewrite granted_final. cbn [completion final emitted].
  repeat split; reflexivity.
Qed.
End SessionControllerMore.

(** ** Instances *)

(** X4 at the first request of a started session, answered with status
    200 and the sample detection. *)
Lemma successful_prediction_replaces_slot_witness :
  requests (browser (sample_step (IntervalFired 1 sample_image) session_started)) !! 0%nat
  = Some AwaitingResponse
  /\ ok {| status := 200 |} = true
  /\ latestPredictions
       (vars (sample_run [FetchSettled 0 (Fulfilled {| status := 200 |});
                          JsonSettled 0 (Fulfilled (detections [sample_detection]))]
                         (sample_step (IntervalFired 1 sample_image) session_started)))
     = detections [sample_detection].
Proof.
  assert (H : requests (browser (sample_step (IntervalFired 1 sample_image) session_started))
                !! 0%nat = Some AwaitingResponse) by (vm_compute; reflexivity).
  assert (Hok : ok {| status := 200 |} = true) by reflexivity.
  split; [exact H|]. split; [exact Hok|].
  pose proof (successful_prediction_replaces_slot sample_measureText sample_toString sample_string_to_number
                _ _ _ (detections [sample_detection]) H Hok) as T.
  cbv zeta in T. exact (proj1 (proj2 (proj2 (proj2 (proj2 (proj2 (proj2 T))))))).
Defined.

(** X5 with two overlapping requests whose bodies settle in the reverse
    order: the slot ends with the answer to the older request. *)
Lemma last_response_wins_witness :
  0%nat <> 1%nat
  /\ requests (browser two_bodies_awaited) !! 0%nat = Some AwaitingBody
  /\ requests (browser two_bodies_awaited) !! 1%nat = Some AwaitingBody
  /\ latestPredictions
       (vars (sample_run [JsonSettled 1 (Fulfilled (JArray []));
                          JsonSettled 0 (Fulfilled (detections [sample_detection]))]
                         two_bodies_awaited))
     = detections [sample_detection].
Proof.
  assert (Hne : 0%nat <> 1%nat) by discriminate.
  assert (H0 : requests (browser two_bodies_awaited) !! 0%nat = Some AwaitingBody)
    by (vm_compute; reflexivity).
  assert (H1 : requests (browser two_bodies_awaited) !! 1%nat = Some AwaitingBody)
    by (vm_compute; reflexivity).
  split; [exact Hne|]. split; [exact H0|]. split; [exact H1|].
  exact (proj2 (last_response_wins sample_measureText sample_toString sample_string_to_number
                  _ 0%nat 1%nat (detections [sample_detection]) (JArray []) Hne H0 H1)).
Defined.

(** X7 on the loaded page after a click on start. *)
Lemma active_session_can_be_stopped_witness :
  isDetecting (vars (sample_run [ClickStart] (loaded false true idle_prompt))) = true
  /\ startButton_disabled (page (sample_run [ClickStart] (loaded false true idle_prompt)))
     = true
  /\ stopButton_disabled (page (sample_run [ClickStart] (loaded false true idle_prompt)))
     = false.
Proof.
  assert (H : isDetecting (vars (sample_run [ClickStart] (loaded false true idle_prompt)))
              = true) by reflexivity.
  split; [exact H|].
  exact (active_session_can_be_stopped sample_measureText sample_toString sample_string_to_number
           false true idle_prompt [ClickStart] H).
Defined.

(** X8 on a session that painted a frame and was then stopped. *)
Lemma inactive_surface_is_clear_witness :
  isDetecting
    (vars (run sample_measureText sample_toString sample_string_to_number
             [ClickStart; GetUserMediaSettled (Fulfilled camera);
              LoadedMetadata; AnimationFrame; ClickStop]
             (loaded false true idle_prompt))) = false
  /\ canvas
       (page (run sample_measureText sample_toString sample_string_to_number
                [ClickStart; GetUserMediaSettled (Fulfilled camera);
                 LoadedMetadata; AnimationFrame; ClickStop]
                (loaded false true idle_prompt))) = [].
Proof.
  assert (H : isDetecting
                (vars (run sample_measureText sample_toString sample_string_to_number
                         [ClickStart; GetUserMediaSettled (Fulfilled camera);
                          LoadedMetadata; AnimationFrame; ClickStop]
                         (loaded false true idle_prompt))) = false)
    by (vm_compute; reflexivity).
  split; [exact H|].
  exact (inactive_surface_is_clear sample_measureText sample_toString sample_string_to_number
           false true idle_prompt
           [ClickStart; GetUserMediaSettled (Fulfilled camera);
            LoadedMetadata; AnimationFrame; ClickStop] H).
Defined.

(** X11 at the second granted start of a page: two listeners run, the
    timers 2 and 3 start, and after stop() the timer 2 is still live. *)
Lemma metadata_runs_every_listener_witness :
  is_Some (video_srcObject (page second_start_granted))
  /\ video_listeners (page second_start_granted) = 2%nat
  /\ next_interval (browser second_start_granted) = 2%nat
  /\ 2%nat ∈ intervals
               (browser (final (stopDetection
                                  (sample_step LoadedMetadata second_start_granted)))).
Proof.
  assert (H : is_Some (video_srcObject (page second_start_granted)))
    by (vm_compute; eauto).
  split; [exact H|]. split; [reflexivity|]. split; [reflexivity|].
  pose proof (metadata_runs_every_listener sample_measureText sample_toString sample_string_to_number
                second_start_granted H) as T.
  cbv zeta in T. destruct T as (_ & _ & _ & T & _).
  apply (T 2%nat); vm_compute; lia.
Defined.

(** X13 on the loaded page, with the camera granted after the stop. *)
Lemma grant_after_stop_keeps_camera_witness :
  startButton_disabled (page page_loaded) = false
  /\ isDetecting
       (vars (step sample_measureText sample_toString sample_string_to_number
                (GetUserMediaSettled (Fulfilled camera))
                (run sample_measureText sample_toString sample_string_to_number [ClickStart; ClickStop]
                   page_loaded))) = false
  /\ stream
       (vars (step sample_measureText sample_toString sample_string_to_number
                (GetUserMediaSettled (Fulfilled camera))
                (run sample_measureText sample_toString sample_string_to_number [ClickStart; ClickStop]
                   page_loaded))) = Some camera.
Proof.
  assert (H : startButton_disabled (page page_loaded) = false) by reflexivity.
  split; [exact H|].
  pose proof (grant_after_stop_keeps_camera sample_measureText sample_toString sample_string_to_number
                page_loaded camera H) as T.
  cbv zeta in T. destruct T as (T1 & T2 & _). split; [exact T1 | exact T2].
Defined.

(** ** The label text *)

(** X14. A confidence that is a whole percentage is shown as that
    percentage: for every [p] from 0 to 100 the label of a detection
    whose confidence is the number nearest to [p / 100] reads
    [label: p%], although [confidence * 100] is not always the integer
    [p] in binary64 arithmetic. *)
Theorem label_text_whole_percent
    (engine_toString : float -> string) (l : string) (p : nat) :
  (p <= 100)%nat ->
  label_text engine_toString l (percent_confidence p) = l +:+ ": " +:+ pretty p +:+ "%".
Proof.
  intros Hp.
  assert (Hall : forallb (shows_percent engine_toString) (seq 0 101) = true)
    by (vm_compute; reflexivity).
  rewrite forallb_forall in Hall.
  assert (Hin : In p (seq 0 101)) by (apply in_seq; lia).
  specialize (Hall p Hin).
  unfold shows_percent in Hall. apply String.eqb_eq in Hall.
  unfold label_text. rewrite Hall. reflexivity.
Qed.

(** X14 at 29 percent, where [0.29 * 100] is not 29 in binary64. *)
Lemma label_text_whole_percent_witness :
  (29 <= 100)%nat
  /\ (percent_confidence 29 * 100)%float <> 29%float
  /\ label_text sample_toString "Fake" (percent_confidence 29) = "Fake: 29%".
Proof.
  assert (H : (29 <= 100)%nat) by lia.
  split; [exact H|]. split; [vm_compute; discriminate|].
  exact (label_text_whole_percent sample_toString "Fake" 29 H).
Defined.

(** ** What is sent *)

Section Requests.
Variable measureText : string -> string -> float.
Variable engine_toString : float -> string.
Variable string_to_number : string -> float.

Lemma count_app {A} (f : A -> bool) (l1 l2 : list A) :
  count f (l1 ++ l2) = (count f l1 + count f l2)%nat.
Proof. unfold count. rewrite filter_app, length_app. reflexivity. Qed.

Lemma count_none {A} (f : A -> bool) (l : list A) :
  Forall (fun a => f a = false) l -> count f l = 0%nat.
Proof.
  unfold count. induction 1 as [|a l Ha _ IH]; [reflexivity|].
  rewrite filter_cons_False by congruence. exact IH.
Qed.

Lemma count_nil {A} (f : A -> bool) : count f [] = 0%nat.
Proof. reflexivity. Qed.

Lemma count_cons {A} (f : A -> bool) (a : A) (l : list A) :
  count f (a :: l) = ((if f a then 1 else 0) + count f l)%nat.
Proof.
  unfold count. destruct (f a) eqn:E.
  - rewrite filter_cons_True by exact E. reflexivity.
  - rewrite filter_cons_False by congruence. reflexivity.
Qed.

Lemma handle_sends (g : Effect -> bool) (ev : Event) :
  g CallGetUserMedia = false \/ ev <> ClickStart ->
  (forall r i, g (CallFetch r i) = false) \/ is_timer ev = false ->
  (forall e, is_fetch e = false -> is_getUserMedia e = false -> g e = false) ->
  respects any_state (fun e => g e = false) (handle measureText engine_toString string_to_number ev).
Proof.
  intros Hg Hf Hother.
  assert (Hstop : respects any_state (fun e => g e = false) stopDetection).
  { intros s. split; [exact I|]. rewrite stopDetection_spec. cbn [emitted].
    constructor; [apply Hother; reflexivity|]. apply Forall_app. split.
    - apply Forall_forall. intros e He. apply list_elem_of_fmap in He.
      destruct He as (t & -> & _). apply Hother; reflexivity.
    - repeat constructor. apply Hother; reflexivity. }
  assert (Hdraw : forall v, respects any_state (fun e => g e = false)
                              (drawPredictions measureText engine_toString string_to_number v)).
  { intros v. apply drawPredictions_respects. intros s s' _. exact I. }
  destruct ev;
    unfold handle, startDetection_resumed, onLoadedMetadata, predictionLoop,
      predictionLoop_response, predictionLoop_json, predictionLoop_catch, startDetection,
      renderLoop;
    unfold getUserMedia, video_play, requestAnimationFrame, video_addEventListener,
      setInterval, fetch, console_error, write_latestPredictions, read_latestPredictions,
      ctx_drawImage, paint;
    repeat match goal with
           | |- respects _ _ stopDetection => apply Hstop
           | |- respects _ _ (drawPredictions _ _ _ _) => apply Hdraw
           | _ => respects_step
           end;
    try exact I; try (apply Hother; reflexivity).
  - destruct Hg as [Hg|Hg]; [exact Hg | congruence].
  - destruct Hf as [Hf|Hf]; [apply Hf | discriminate Hf].
Qed.

Lemma handle_count (f : Effect -> bool) (trigger : Event -> bool) :
  (forall ev s, trigger ev = false ->
     Forall (fun e => f e = false) (emitted (handle measureText engine_toString string_to_number ev s))) ->
  (forall ev s, (count f (emitted (handle measureText engine_toString string_to_number ev s)) <= 1)%nat) ->
  forall evs s,
    (count f (trace measureText engine_toString string_to_number evs s) <= count trigger evs)%nat.
Proof.
  intros Hquiet Hone evs. induction evs as [|ev evs IH]; intros s; cbn [trace]; [reflexivity|].
  rewrite count_app, count_cons. specialize (IH (step measureText engine_toString string_to_number ev s)).
  destruct (trigger ev) eqn:E.
  - specialize (Hone ev s). lia.
  - rewrite (count_none f _ (Hquiet ev s E)). lia.
Qed.

(** X15. Requests are sent by nothing but the timer, one per activation
    at most: in every execution the number of calls of [fetch] is at most
    the number of timer activations, so no failure is ever retried; and
    the camera is requested by nothing but a click on start, once per
    click at most. *)
Theorem one_request_per_timer_activation (evs : list Event) (s : State) :
  (count is_fetch (trace measureText engine_toString string_to_number evs s) <= count is_timer evs)%nat
  /\ (count is_getUserMedia (trace measureText engine_toString string_to_number evs s)
      <= count is_start_click evs)%nat.
Proof.
  split; apply handle_count.
  - intros ev s0 E. apply handle_sends; [left; reflexivity | right; exact E|].
    intros e He _. exact He.
  - intros ev s0. destruct ev;
      try (rewrite count_none; [lia|];
           apply handle_sends; [left; reflexivity | right; reflexivity|];
           intros e He _; exact He).
    unfold handle, predictionLoop, fetch, bind, read, update, emit, ret. cbn -[count].
    destruct (bool_decide _); cbn -[count]; [|rewrite count_nil; lia].
    destruct (isDetecting (vars s0)); cbn -[count]; rewrite ?count_cons, ?count_nil;
      cbn -[count]; lia.
  - intros ev s0 E. apply handle_sends;
      [right; intros ->; discriminate E | left; reflexivity|].
    intros e _ He. exact He.
  - intros ev s0. destruct ev;
      try (rewrite count_none; [lia|];
           apply handle_sends; [right; discriminate | left; reflexivity|];
           intros e _ He; exact He).
    unfold handle, bind, read, ret. cbn [completion final emitted].
    destruct (startButton_disabled (page s0)); [cbn -[count]; rewrite count_nil; lia|].
    rewrite startDetection_final. cbn -[count]. rewrite ?count_cons, ?count_nil.
    cbn -[count]. lia.
Qed.
End Requests.
